(** * basic_resize: kernel lookup, scale-by-factor and scale-to-pixels

    A shallow embedding of [include/scripts/extra_scripts/basic_resize.py].

    Modelling choices, all read off the source:
    - a Python [int] is a [Z]; a Python [float] is an IEEE-754 binary64 value,
      taken from the Standard Library's [SpecFloat] ([prec = 53],
      [emax = 1024], round to nearest even); the argument [scale] is either
      of the two ([number]), since a caller may pass [2] as well as [2.0];
    - a Python [str] is a [string] whose characters are the code points below
      256 (Latin-1); [lower] is [str.lower] on that range;
    - [_KERNELS] is a mutable module-level dict: it lives in the [world] the
      functions run in, as an association list in insertion order (the error
      message joins the keys in that order);
    - raising is an error monad over the [world]; a call of a framework
      resizer appends an [invocation] to the world's log and returns what the
      framework answers ([core_resize], a section variable: the resampling
      itself is not code of this repository). *)

From Stdlib Require Import ZArith NArith Bool List String Ascii Lia.
From Stdlib Require Import Floats.SpecFloat.
Import ListNotations.

Local Open Scope string_scope.
Local Open Scope Z_scope.

(* ================================================================== *)
(** ** Python values *)

Inductive exception : Type :=
| ValueError (msg : string)
| OverflowError (msg : string)
| FrameworkError (msg : string).

Inductive result (A : Type) : Type :=
| Ok (a : A)
| Raise (e : exception).

Arguments Ok {A} a.
Arguments Raise {A} e.

(** [int] or [float]. *)
Inductive number : Type :=
| PyInt (z : Z)
| PyFloat (f : spec_float).

(** The seven resizers of [core.resize] the registry refers to. *)
Inductive resize_op : Type :=
| Point | Bilinear | Bicubic | Lanczos | Spline16 | Spline36 | Spline64.

(** [clip.format]: the two chroma-subsampling shifts. *)
Record VideoFormat : Type := mkFormat {
  subsampling_w : Z;
  subsampling_h : Z
}.

(** [vs.VideoNode], as far as the wrapper reads it. *)
Record VideoNode : Type := mkNode {
  width : Z;
  height : Z;
  format : option VideoFormat
}.

(** One call [resizer(clip, width=w, height=h)]; [None] is Python's [None]. *)
Record invocation : Type := mkCall {
  call_op : resize_op;
  call_clip : VideoNode;
  call_width : option Z;
  call_height : option Z
}.

(** The state a call runs in: the module global [_KERNELS] and the log of
    the framework calls made so far. *)
Record world : Type := mkWorld {
  _KERNELS : list (string * resize_op);
  invoked : list invocation
}.

(* ================================================================== *)
(** ** The monad: state and exceptions *)

Definition M (A : Type) : Type := world -> result A * world.

Definition ret {A} (a : A) : M A := fun st => (Ok a, st).

Definition raise {A} (e : exception) : M A := fun st => (Raise e, st).

Definition bind {A B} (m : M A) (f : A -> M B) : M B :=
  fun st =>
    match m st with
    | (Ok a, st') => f a st'
    | (Raise e, st') => (Raise e, st')
    end.

Definition lift {A} (r : result A) : M A := fun st => (r, st).

Definition read_KERNELS : M (list (string * resize_op)) :=
  fun st => (Ok (_KERNELS st), st).

Notation "x <- m ;; k" := (bind m (fun x => k))
  (at level 61, m at next level, right associativity).

Notation "' pat <- m ;; k" := (bind m (fun x => match x with pat => k end))
  (at level 61, pat pattern, m at next level, right associativity).

(* ================================================================== *)
(** ** Python built-ins used by the module *)

(** binary64 *)
Definition prec : Z := 53.
Definition emax : Z := 1024.

(** [float(z)]: correctly rounded, [OverflowError] when out of range. *)
Definition py_float_of_int (z : Z) : result spec_float :=
  match binary_normalize prec emax z 0 false with
  | S754_infinity _ => Raise (OverflowError "int too large to convert to float")
  | f => Ok f
  end.

Definition py_float (x : number) : result spec_float :=
  match x with
  | PyInt z => py_float_of_int z
  | PyFloat f => Ok f
  end.

(** [a * b]: exact on two ints, otherwise both become floats. *)
Definition py_mul (a b : number) : result number :=
  match a, b with
  | PyInt x, PyInt y => Ok (PyInt (x * y))
  | _, _ =>
      match py_float a with
      | Raise e => Raise e
      | Ok fa =>
          match py_float b with
          | Raise e => Raise e
          | Ok fb => Ok (PyFloat (SFmul prec emax fa fb))
          end
      end
  end.

(** [int(x)]: a float is truncated towards zero. *)
Definition py_int (x : number) : result Z :=
  match x with
  | PyInt z => Ok z
  | PyFloat (S754_zero _) => Ok 0
  | PyFloat (S754_finite s m e) =>
      Ok (if 0 <=? e then cond_Zopp s (Zpos m) * 2 ^ e
          else Z.quot (cond_Zopp s (Zpos m)) (2 ^ (- e)))
  | PyFloat (S754_infinity _) =>
      Raise (OverflowError "cannot convert float infinity to integer")
  | PyFloat S754_nan =>
      Raise (ValueError "cannot convert float NaN to integer")
  end.

(** [x <= 0] *)
Definition py_le0 (x : number) : bool :=
  match x with
  | PyInt z => z <=? 0
  | PyFloat f => SFleb f (S754_zero false)
  end.

(** [a << n] *)
Definition py_lshift (a n : Z) : result Z :=
  if n <? 0 then Raise (ValueError "negative shift count")
  else Ok (Z.shiftl a n).

(** [str.lower] on code points below 256: A-Z and the accented capitals
    U+00C0..U+00DE (U+00D7, the multiplication sign, is no letter). *)
Definition is_upper (c : ascii) : bool :=
  let n := N_of_ascii c in
  (((65 <=? n) && (n <=? 90)) ||
   ((192 <=? n) && (n <=? 222) && negb (n =? 215)))%N.

Definition lower_char (c : ascii) : ascii :=
  if is_upper c then ascii_of_N (N_of_ascii c + 32) else c.

Fixpoint lower (s : string) : string :=
  match s with
  | EmptyString => EmptyString
  | String c r => String (lower_char c) (lower r)
  end.

(** [d[k]], [None] standing for [KeyError]. *)
Fixpoint dict_get {V : Type} (d : list (string * V)) (k : string) : option V :=
  match d with
  | [] => None
  | (k', v) :: r => if String.eqb k' k then Some v else dict_get r k
  end.

(** Iterating a dict yields its keys in insertion order. *)
Definition keys {V : Type} (d : list (string * V)) : list string :=
  map fst d.

(* ================================================================== *)
(** ** The module *)

(** [_KERNELS = { "point": core.resize.Point, ... }] *)
Definition KERNELS_at_load : list (string * resize_op) :=
  [ ("point", Point);
    ("bilinear", Bilinear);
    ("bicubic", Bicubic);
    ("lanczos", Lanczos);
    ("spline16", Spline16);
    ("spline36", Spline36);
    ("spline64", Spline64) ].

(** The world once the module is imported, [log] being the framework calls
    made so far. *)
Definition loaded (log : list invocation) : world :=
  mkWorld KERNELS_at_load log.

Definition unknown_kernel_message (kernel : string)
  (d : list (string * resize_op)) : string :=
  "Unknown kernel '" ++ kernel ++ "'. Choose from: "
    ++ String.concat ", " (keys d).

Definition _pick_resizer (kernel : string) : M resize_op :=
  d <- read_KERNELS ;;
  match dict_get d (lower kernel) with
  | Some f => ret f
  | None => raise (ValueError (unknown_kernel_message kernel d))
  end.

Section Framework.

(** What the host framework answers to a resizer call. *)
Variable core_resize :
  resize_op -> VideoNode -> option Z -> option Z -> result VideoNode.

Definition invoke (f : resize_op) (clip : VideoNode) (w h : option Z)
  : M VideoNode :=
  fun st =>
    (core_resize f clip w h,
     mkWorld (_KERNELS st) (invoked st ++ [mkCall f clip w h])%list).

Definition scale (clip : VideoNode) (scale : number) (kernel : string)
  : M VideoNode :=
  if py_le0 scale then raise (ValueError "scale must be > 0") else
  (* provisional size *)
  pw <- lift (py_mul (PyInt (width clip)) scale) ;;
  iw <- lift (py_int pw) ;;
  let w := Z.max 1 iw in
  ph <- lift (py_mul (PyInt (height clip)) scale) ;;
  ih <- lift (py_int ph) ;;
  let h := Z.max 1 ih in
  (* mod only if subsampled *)
  '(w, h) <-
    match format clip with
    | Some fmt =>
        mod_w <- lift (py_lshift 1 (subsampling_w fmt)) ;;
        mod_h <- lift (py_lshift 1 (subsampling_h fmt)) ;;
        let w := if 1 <? mod_w then Z.max mod_w (w - w mod mod_w) else w in
        let h := if 1 <? mod_h then Z.max mod_h (h - h mod mod_h) else h in
        ret (w, h)
    | None => ret (w, h)
    end ;;
  f <- _pick_resizer kernel ;;
  invoke f clip (Some w) (Some h).

Definition pixel (clip : VideoNode) (width height : option Z)
  (kernel : string) : M VideoNode :=
  f <- _pick_resizer kernel ;;
  invoke f clip width height.

End Framework.

(* ================================================================== *)
(** ** The words of the specification *)

(** "positive scale factor": an int above 0, a finite float above 0 or
    plus infinity (NaN is neither positive nor at most 0). *)
Definition positive_scale (x : number) : bool :=
  match x with
  | PyInt z => 0 <? z
  | PyFloat (S754_finite false _ _) => true
  | PyFloat (S754_infinity false) => true
  | PyFloat _ => false
  end.

(** "scale factor less than or equal to 0": an int at most 0, either zero
    float, a negative finite float or minus infinity. *)
Definition nonpositive_scale (x : number) : bool :=
  match x with
  | PyInt z => negb (0 <? z)
  | PyFloat (S754_zero _) => true
  | PyFloat (S754_finite s _ _) => s
  | PyFloat (S754_infinity s) => s
  | PyFloat S754_nan => false
  end.

(** The floor of a float: of [(-1)^s * m * 2^e], rounded towards minus
    infinity; undefined on the infinities and NaN. *)
Definition float_floor (f : spec_float) : option Z :=
  match f with
  | S754_zero _ => Some 0
  | S754_finite s m e =>
      Some (if 0 <=? e then cond_Zopp s (Zpos m) * 2 ^ e
            else cond_Zopp s (Zpos m) / 2 ^ (- e))
  | S754_infinity _ | S754_nan => None
  end.

(** "floor(source_dimension x scale)", the product being the one Python
    forms; undefined when that product is no finite number. *)
Definition scaled_floor (d : Z) (s : number) : option Z :=
  match py_mul (PyInt d) s with
  | Ok (PyInt z) => Some z
  | Ok (PyFloat f) => float_floor f
  | Raise _ => None
  end.

(** [w] is [p] rounded down to a multiple of [m], but not below [m]. *)
Definition rounded_down_to (m p w : Z) : Prop :=
  (m | w) /\ m <= w /\ (m <= p -> w <= p < w + m) /\ (p < m -> w = m).

(** The supported kernel names, as the specification lists them. *)
Definition supported_names : list string :=
  [ "point"; "bilinear"; "bicubic"; "lanczos";
    "spline16"; "spline36"; "spline64" ].

(** Two characters that differ at most in case. *)
Definition char_eq_nocase (c d : ascii) : bool :=
  Ascii.eqb c d
  || (is_upper c && (N_of_ascii d =? N_of_ascii c + 32)%N)
  || (is_upper d && (N_of_ascii c =? N_of_ascii d + 32)%N).

(** "case-insensitive match" *)
Fixpoint eq_nocase (s t : string) : bool :=
  match s, t with
  | EmptyString, EmptyString => true
  | String c s', String d t' => char_eq_nocase c d && eq_nocase s' t'
  | _, _ => false
  end.

(** "no chroma subsampling": factor 0 on both axes, or no format. *)
Definition no_subsampling (clip : VideoNode) : Prop :=
  match format clip with
  | None => True
  | Some fmt => subsampling_w fmt = 0 /\ subsampling_h fmt = 0
  end.

(** No supported name matches [kernel]. *)
Definition unsupported (kernel : string) : Prop :=
  forall name, In name supported_names -> eq_nocase kernel name = false.

(** [sub] occurs in [s]. *)
Definition contains (sub s : string) : Prop :=
  exists pre post, s = pre ++ sub ++ post.

(** A computation that reads the registry, leaves it as it is, and whose
    answer and framework calls do not depend on the calls made before. *)
Definition stateless {A} (m : M A) : Prop :=
  forall kernels, exists r evs, forall log,
    m (mkWorld kernels log) = (r, mkWorld kernels (log ++ evs)%list).

(* ------------------------------------------------------------------ *)
(** *** The steps of [scale], one by one *)

(** [max(1, int(d * scale))] *)
Definition provisional (d : Z) (s : number) : result Z :=
  match py_mul (PyInt d) s with
  | Raise e => Raise e
  | Ok p =>
      match py_int p with
      | Raise e => Raise e
      | Ok i => Ok (Z.max 1 i)
      end
  end.

(** [(mod_w, mod_h)]; a clip without format is left alone, as with
    modulus 1. *)
Definition moduli (clip : VideoNode) : result (Z * Z) :=
  match format clip with
  | None => Ok (1, 1)
  | Some fmt =>
      match py_lshift 1 (subsampling_w fmt) with
      | Raise e => Raise e
      | Ok mw =>
          match py_lshift 1 (subsampling_h fmt) with
          | Raise e => Raise e
          | Ok mh => Ok (mw, mh)
          end
      end
  end.

(** [max(m, d - d % m)] when [m > 1] *)
Definition fit (m d : Z) : Z :=
  if 1 <? m then Z.max m (d - d mod m) else d.

(* ------------------------------------------------------------------ *)
(** *** Words for further properties *)

(** The double [2^k], for [k] in the range of normal exponents. *)
Definition pow2_float (k : Z) : spec_float :=
  S754_finite false 4503599627370496 (k - 52).

(** [floor(d * 2^k)] in exact arithmetic. *)
Definition pow2_scaled (d k : Z) : Z :=
  if 0 <=? k then d * 2 ^ k else d / 2 ^ (- k).

(** A positive factor that is a number: a positive int or a positive
    finite float. *)
Definition finite_positive (x : number) : bool :=
  match x with
  | PyInt z => 0 <? z
  | PyFloat (S754_finite false _ _) => true
  | PyFloat _ => false
  end.

(** A factor that is no number: NaN or plus infinity. *)
Definition nan_or_plus_infinity (x : number) : bool :=
  match x with
  | PyFloat S754_nan => true
  | PyFloat (S754_infinity false) => true
  | _ => false
  end.

(** The errors Python's conversions raise on the way to the provisional
    size. *)
Definition conversion_error (e : exception) : Prop :=
  e = OverflowError "int too large to convert to float" \/
  e = OverflowError "cannot convert float infinity to integer" \/
  e = ValueError "cannot convert float NaN to integer".

(** The subsampling factors of a format are never negative. *)
Definition well_formed (clip : VideoNode) : Prop :=
  match format clip with
  | None => True
  | Some fmt => 0 <= subsampling_w fmt /\ 0 <= subsampling_h fmt
  end.

(** The modulus of each axis: [2 ^ factor], 1 without a format. *)
Definition modulus_w (clip : VideoNode) : Z :=
  match format clip with
  | None => 1
  | Some fmt => 2 ^ subsampling_w fmt
  end.

Definition modulus_h (clip : VideoNode) : Z :=
  match format clip with
  | None => 1
  | Some fmt => 2 ^ subsampling_h fmt
  end.

(** Both dimensions are at least 1 and multiples of their moduli. *)
Definition aligned (clip : VideoNode) : Prop :=
  1 <= width clip /\ 1 <= height clip /\
  (modulus_w clip | width clip) /\ (modulus_h clip | height clip).

(** A framework whose resizers answer, when they answer, with a node of
    the size asked for and of the format of the source. *)
Definition keeps_size_and_format
  (core_resize :
     resize_op -> VideoNode -> option Z -> option Z -> result VideoNode)
  : Prop :=
  forall f c w h c',
    core_resize f c (Some w) (Some h) = Ok c' ->
    width c' = w /\ height c' = h /\ format c' = format c.

(* ------------------------------------------------------------------ *)
(** *** Concrete inputs *)

(** 0.5 and the double nearest to 1/3 *)
Definition half : spec_float := S754_finite false 4503599627370496 (-53).
Definition third : spec_float := S754_finite false 6004799503160661 (-54).

(** A framework that answers every call with a node of the size asked for. *)
Definition sized_node (f : resize_op) (c : VideoNode) (w h : option Z)
  : result VideoNode :=
  match w, h with
  | Some w, Some h => Ok (mkNode w h (format c))
  | _, _ => Raise (FrameworkError "Resize: bad dimensions")
  end.

(** A 4:2:0 clip of 101 x 57 and a 4:4:4 clip of 6 x 6. *)
Definition yuv420_101x57 : VideoNode := mkNode 101 57 (Some (mkFormat 1 1)).
Definition yuv444_6x6 : VideoNode := mkNode 6 6 (Some (mkFormat 0 0)).
Definition yuv420_3x3 : VideoNode := mkNode 3 3 (Some (mkFormat 1 1)).

(** A 4:2:0 clip of 1920 x 1080 and a 4:2:0 clip of variable size. *)
Definition yuv420_1920x1080 : VideoNode :=
  mkNode 1920 1080 (Some (mkFormat 1 1)).
Definition yuv420_variable : VideoNode := mkNode 0 0 (Some (mkFormat 1 1)).

(* ------------------------------------------------------------------ *)
(** *** Tactics *)

(** Boolean tests on character codes, as propositions. *)
Ltac bool_to_prop :=
  repeat match goal with
  | H : _ || _ = true |- _ => apply orb_true_iff in H; destruct H as [H | H]
  | H : _ && _ = true |- _ => apply andb_true_iff in H; destruct H as [? H]
  | H : negb _ = true |- _ => apply negb_true_iff in H
  | H : N.leb _ _ = true |- _ => apply N.leb_le in H
  | H : N.eqb _ _ = true |- _ => apply N.eqb_eq in H
  | H : N.eqb _ _ = false |- _ => apply N.eqb_neq in H
  end.

(** No supported name matches a given literal: the seven cases. *)
Ltac no_match :=
  let name := fresh "name" in
  let H := fresh "H" in
  intros name H; cbn in H;
  repeat (destruct H as [<- | H]; [reflexivity |]); contradiction.

(* ================================================================== *)
(** ** Numbers *)

Lemma max1_trunc_floor (a b : Z) :
  0 < b -> Z.max 1 (Z.quot a b) = Z.max 1 (a / b).
Proof.
  intros Hb. destruct (Z_le_gt_dec 0 a) as [Ha | Ha].
  - rewrite Z.quot_div_nonneg by lia. reflexivity.
  - assert (Hq : Z.quot a b <= 0).
    { rewrite <- (Z.quot_0_l b) by lia. apply Z.quot_le_mono; lia. }
    assert (Hd : a / b < 0) by (apply Z.div_lt_upper_bound; lia).
    lia.
Qed.

Lemma py_int_floor (f : spec_float) (k : Z) :
  float_floor f = Some k ->
  exists i, py_int (PyFloat f) = Ok i /\ Z.max 1 i = Z.max 1 k.
Proof.
  destruct f as [s | s | | s m e]; cbn [float_floor py_int]; try discriminate.
  - intros [= <-]. eexists; split; reflexivity.
  - intros [= <-]. eexists; split; [reflexivity |].
    destruct (0 <=? e) eqn:He; [reflexivity |].
    apply max1_trunc_floor. apply Z.pow_pos_nonneg; lia.
Qed.

Lemma py_int_defined (f : spec_float) (i : Z) :
  py_int (PyFloat f) = Ok i -> exists k, float_floor f = Some k.
Proof.
  destruct f as [s | s | | s m e]; cbn [float_floor py_int];
    try discriminate; intros _; eexists; reflexivity.
Qed.

Lemma provisional_floor (d : Z) (s : number) (k : Z) :
  scaled_floor d s = Some k -> provisional d s = Ok (Z.max 1 k).
Proof.
  unfold scaled_floor, provisional.
  destruct (py_mul (PyInt d) s) as [[z | f] | e]; try discriminate.
  - intros [= <-]. reflexivity.
  - intros Hk. destruct (py_int_floor f k Hk) as (i & -> & ->). reflexivity.
Qed.

Lemma provisional_defined (d : Z) (s : number) (p : Z) :
  provisional d s = Ok p ->
  exists k, scaled_floor d s = Some k /\ p = Z.max 1 k.
Proof.
  unfold scaled_floor, provisional.
  destruct (py_mul (PyInt d) s) as [[z | f] | e]; try discriminate.
  - cbn [py_int]. intros [= <-]. eexists; split; reflexivity.
  - destruct (py_int (PyFloat f)) as [i | e] eqn:Hi; try discriminate.
    intros [= <-]. destruct (py_int_defined f i Hi) as [k Hk].
    exists k. split; [exact Hk |].
    destruct (py_int_floor f k Hk) as (i' & Hi' & Hmax).
    rewrite Hi in Hi'. injection Hi' as <-. exact Hmax.
Qed.

Lemma provisional_ge_1 (d : Z) (s : number) (p : Z) :
  provisional d s = Ok p -> 1 <= p.
Proof.
  intros H. destruct (provisional_defined d s p H) as (k & _ & ->). lia.
Qed.

Lemma positive_not_le0 (s : number) :
  positive_scale s = true -> py_le0 s = false.
Proof.
  destruct s as [z | [sg | sg | | sg m e]]; cbn; try discriminate.
  - intros H. apply Z.ltb_lt in H. apply Z.leb_gt. exact H.
  - destruct sg; [discriminate | reflexivity].
  - destruct sg; [discriminate | reflexivity].
Qed.

Lemma nonpositive_le0 (s : number) :
  nonpositive_scale s = py_le0 s.
Proof.
  destruct s as [z | [sg | sg | | sg m e]]; cbn; try reflexivity.
  - rewrite Z.ltb_antisym, negb_involutive. reflexivity.
  - destruct sg; reflexivity.
  - destruct sg; reflexivity.
Qed.

(** [1 << n] is [2^n], and a proper modulus once [n] is positive. *)
Lemma lshift_1 (n : Z) :
  0 <= n -> py_lshift 1 n = Ok (2 ^ n).
Proof.
  intros Hn. unfold py_lshift.
  destruct (Z.ltb_spec n 0) as [H | H]; [lia |].
  rewrite Z.shiftl_1_l. reflexivity.
Qed.

Lemma fit_rounds_down (n p : Z) :
  0 < n -> 1 <= p -> rounded_down_to (2 ^ n) p (fit (2 ^ n) p).
Proof.
  intros Hn Hp.
  assert (Hm : 1 < 2 ^ n) by (apply Z.pow_gt_1; lia).
  unfold fit, rounded_down_to.
  destruct (Z.ltb_spec 1 (2 ^ n)) as [_ | H]; [| lia].
  set (m := 2 ^ n) in *.
  pose proof (Z.div_mod p m ltac:(lia)) as Hdm.
  pose proof (Z.mod_pos_bound p m ltac:(lia)) as Hr.
  assert (Heq : p - p mod m = m * (p / m)) by lia.
  rewrite Heq.
  destruct (Z_lt_ge_dec p m) as [Hlt | Hge].
  - rewrite (Z.div_small p m) by lia. rewrite Z.mul_0_r.
    rewrite Z.max_l by lia.
    repeat split; try lia. apply Z.divide_refl.
  - assert (Hq : 1 <= p / m) by (apply Z.div_le_lower_bound; lia).
    rewrite Z.max_r by nia.
    repeat split; try nia. apply Z.divide_factor_l.
Qed.

Lemma fit_1 (d : Z) : fit 1 d = d.
Proof. reflexivity. Qed.

Lemma fit_ge_1 (m d : Z) : 1 <= d -> 1 <= fit m d.
Proof.
  intros Hd. unfold fit. destruct (Z.ltb_spec 1 m); lia.
Qed.

(* ================================================================== *)
(** ** Strings and the registry *)

Lemma lowered_not_upper (c d : ascii) :
  is_upper c = true -> (N_of_ascii d = N_of_ascii c + 32)%N ->
  is_upper d = false.
Proof.
  intros Hc Hd. destruct (is_upper d) eqn:E; [exfalso | reflexivity].
  unfold is_upper in Hc, E. bool_to_prop; lia.
Qed.

Lemma lower_char_shift (c d : ascii) :
  is_upper c = true -> (N_of_ascii d = N_of_ascii c + 32)%N ->
  lower_char c = lower_char d.
Proof.
  intros Hc Hd. unfold lower_char.
  rewrite Hc, (lowered_not_upper c d Hc Hd), <- Hd.
  apply ascii_N_embedding.
Qed.

Lemma lower_char_nocase (c d : ascii) :
  char_eq_nocase c d = true -> lower_char c = lower_char d.
Proof.
  unfold char_eq_nocase. intros H. bool_to_prop.
  - apply Ascii.eqb_eq in H. subst. reflexivity.
  - apply lower_char_shift; assumption.
  - symmetry. apply lower_char_shift; assumption.
Qed.

Lemma char_eq_nocase_lower (c : ascii) :
  char_eq_nocase c (lower_char c) = true.
Proof.
  unfold char_eq_nocase, lower_char.
  destruct (is_upper c) eqn:Hc.
  - rewrite N_ascii_embedding.
    + rewrite N.eqb_refl, orb_true_r. reflexivity.
    + unfold is_upper in Hc. bool_to_prop; lia.
  - rewrite Ascii.eqb_refl. reflexivity.
Qed.

Lemma eq_nocase_lower (s t : string) :
  eq_nocase s t = true -> lower s = lower t.
Proof.
  revert t. induction s as [| c s IH]; intros [| d t]; cbn;
    try discriminate; try reflexivity.
  intros H. apply andb_true_iff in H. destruct H as [Hc Hs].
  rewrite (lower_char_nocase c d Hc), (IH t Hs). reflexivity.
Qed.

Lemma eq_nocase_of_lower (s : string) :
  eq_nocase s (lower s) = true.
Proof.
  induction s as [| c s IH]; cbn; [reflexivity |].
  rewrite char_eq_nocase_lower, IH. reflexivity.
Qed.

(** The supported names are in lower case already. *)
Lemma supported_lower (name : string) :
  In name supported_names -> lower name = name.
Proof.
  unfold supported_names. cbn [In].
  intros H; repeat (destruct H as [<- | H]; [reflexivity |]); contradiction.
Qed.

Lemma matching_lower (kernel name : string) :
  In name supported_names -> eq_nocase kernel name = true ->
  lower kernel = name.
Proof.
  intros Hin Heq. rewrite (eq_nocase_lower _ _ Heq). apply supported_lower, Hin.
Qed.

Lemma unsupported_lower (kernel : string) :
  unsupported kernel -> ~ In (lower kernel) supported_names.
Proof.
  intros Hun Hin. specialize (Hun _ Hin).
  rewrite eq_nocase_of_lower in Hun. discriminate.
Qed.

(** The registry at load time holds exactly the supported names. *)
Lemma keys_at_load : keys KERNELS_at_load = supported_names.
Proof. reflexivity. Qed.

Lemma dict_get_supported (name : string) :
  In name supported_names ->
  exists op, In (name, op) KERNELS_at_load /\
             dict_get KERNELS_at_load name = Some op.
Proof.
  unfold supported_names. cbn [In].
  intros H;
    repeat (destruct H as [<- | H];
            [eexists; split; [| reflexivity]; cbn; tauto |]);
    contradiction.
Qed.

Lemma dict_get_unsupported (k : string) :
  ~ In k supported_names -> dict_get KERNELS_at_load k = None.
Proof.
  intros Hk. unfold KERNELS_at_load. cbn [dict_get].
  repeat match goal with
  | |- context [String.eqb ?a k] =>
      destruct (String.eqb_spec a k) as [E | _];
      [exfalso; apply Hk; rewrite <- E; cbn; tauto |]
  end.
  reflexivity.
Qed.

Lemma append_assoc (a b c : string) : (a ++ b) ++ c = a ++ b ++ c.
Proof.
  induction a as [| x a IH]; cbn; [reflexivity | rewrite IH; reflexivity].
Qed.

Lemma contains_append_l (sub p s : string) :
  contains sub s -> contains sub (p ++ s).
Proof.
  intros (pre & post & ->). exists (p ++ pre), post.
  rewrite append_assoc. reflexivity.
Qed.

(** Every supported name occurs in the joined list of keys. *)
Lemma contains_joined (name : string) :
  In name supported_names ->
  contains name (String.concat ", " (keys KERNELS_at_load)).
Proof.
  unfold supported_names. cbn [In]. intros H.
  destruct H as [<- | H]; [exists "", ", bilinear, bicubic, lanczos, spline16, spline36, spline64"; reflexivity |].
  destruct H as [<- | H]; [exists "point, ", ", bicubic, lanczos, spline16, spline36, spline64"; reflexivity |].
  destruct H as [<- | H]; [exists "point, bilinear, ", ", lanczos, spline16, spline36, spline64"; reflexivity |].
  destruct H as [<- | H]; [exists "point, bilinear, bicubic, ", ", spline16, spline36, spline64"; reflexivity |].
  destruct H as [<- | H]; [exists "point, bilinear, bicubic, lanczos, ", ", spline36, spline64"; reflexivity |].
  destruct H as [<- | H]; [exists "point, bilinear, bicubic, lanczos, spline16, ", ", spline64"; reflexivity |].
  destruct H as [<- | H]; [exists "point, bilinear, bicubic, lanczos, spline16, spline36, ", ""; reflexivity |].
  contradiction.
Qed.

Lemma message_lists_names (kernel name : string) :
  In name supported_names ->
  contains name (unknown_kernel_message kernel KERNELS_at_load).
Proof.
  intros Hin. unfold unknown_kernel_message.
  do 3 apply contains_append_l. apply contains_joined, Hin.
Qed.

(** The two runs of [_pick_resizer]. *)
Lemma pick_resizer_run (kernel : string) (st : world) :
  _pick_resizer kernel st =
  match dict_get (_KERNELS st) (lower kernel) with
  | Some f => (Ok f, st)
  | None =>
      (Raise (ValueError (unknown_kernel_message kernel (_KERNELS st))), st)
  end.
Proof.
  unfold _pick_resizer, bind, read_KERNELS, ret, raise.
  destruct (dict_get (_KERNELS st) (lower kernel)); reflexivity.
Qed.

(* ================================================================== *)
(** ** The runs of [scale] and [pixel] *)

Section Runs.

Variable core_resize :
  resize_op -> VideoNode -> option Z -> option Z -> result VideoNode.

(** [scale], step by step: the check of the factor, the two provisional
    sizes, the moduli, the lookup, the call. *)
Lemma scale_run (clip : VideoNode) (s : number) (kernel : string) (st : world) :
  scale core_resize clip s kernel st =
  if py_le0 s then (Raise (ValueError "scale must be > 0"), st) else
  match provisional (width clip) s with
  | Raise e => (Raise e, st)
  | Ok w =>
  match provisional (height clip) s with
  | Raise e => (Raise e, st)
  | Ok h =>
  match moduli clip with
  | Raise e => (Raise e, st)
  | Ok (mw, mh) =>
  match dict_get (_KERNELS st) (lower kernel) with
  | None =>
      (Raise (ValueError (unknown_kernel_message kernel (_KERNELS st))), st)
  | Some f =>
      (core_resize f clip (Some (fit mw w)) (Some (fit mh h)),
       mkWorld (_KERNELS st)
         (invoked st ++ [mkCall f clip (Some (fit mw w)) (Some (fit mh h))]))
  end end end end.
Proof.
  unfold scale. destruct (py_le0 s); [reflexivity |].
  unfold provisional, moduli, bind, lift, ret.
  destruct (py_mul (PyInt (width clip)) s) as [pw | e]; [| reflexivity].
  destruct (py_int pw) as [iw | e]; [| reflexivity].
  destruct (py_mul (PyInt (height clip)) s) as [ph | e]; [| reflexivity].
  destruct (py_int ph) as [ih | e]; [| reflexivity].
  destruct (format clip) as [fmt |].
  - destruct (py_lshift 1 (subsampling_w fmt)) as [mw | e]; [| reflexivity].
    destruct (py_lshift 1 (subsampling_h fmt)) as [mh | e]; [| reflexivity].
    rewrite pick_resizer_run.
    destruct (dict_get (_KERNELS st) (lower kernel)); reflexivity.
  - rewrite pick_resizer_run.
    destruct (dict_get (_KERNELS st) (lower kernel)); reflexivity.
Qed.

Lemma pixel_run (clip : VideoNode) (w h : option Z) (kernel : string)
  (st : world) :
  pixel core_resize clip w h kernel st =
  match dict_get (_KERNELS st) (lower kernel) with
  | None =>
      (Raise (ValueError (unknown_kernel_message kernel (_KERNELS st))), st)
  | Some f =>
      (core_resize f clip w h,
       mkWorld (_KERNELS st) (invoked st ++ [mkCall f clip w h]))
  end.
Proof.
  unfold pixel, bind. rewrite pick_resizer_run.
  destruct (dict_get (_KERNELS st) (lower kernel)); reflexivity.
Qed.

(** A run that logs a call got through every check. *)
Lemma scale_call_inv (clip : VideoNode) (s : number) (kernel : string)
  (st st' : world) (r : result VideoNode) (c : invocation) :
  scale core_resize clip s kernel st = (r, st') ->
  invoked st' = (invoked st ++ [c])%list ->
  exists w h mw mh f,
    py_le0 s = false /\
    provisional (width clip) s = Ok w /\
    provisional (height clip) s = Ok h /\
    moduli clip = Ok (mw, mh) /\
    dict_get (_KERNELS st) (lower kernel) = Some f /\
    c = mkCall f clip (Some (fit mw w)) (Some (fit mh h)).
Proof.
  rewrite scale_run. intros Hrun Hlog.
  assert (Hno : forall e, (Raise e, st) = (r, st') -> False).
  { intros e [= _ <-]. apply (f_equal (@List.length _)) in Hlog.
    rewrite length_app in Hlog. cbn in Hlog. lia. }
  destruct (py_le0 s); [destruct (Hno _ Hrun) |].
  destruct (provisional (width clip) s) as [w | e]; [| destruct (Hno _ Hrun)].
  destruct (provisional (height clip) s) as [h | e]; [| destruct (Hno _ Hrun)].
  destruct (moduli clip) as [[mw mh] | e]; [| destruct (Hno _ Hrun)].
  destruct (dict_get (_KERNELS st) (lower kernel)) as [f |];
    [| destruct (Hno _ Hrun)].
  injection Hrun as _ <-. cbn in Hlog.
  apply app_inv_head in Hlog. injection Hlog as <-.
  exists w, h, mw, mh, f. repeat split; reflexivity.
Qed.

(* ------------------------------------------------------------------ *)
(** *** Statelessness, step by step *)

Lemma stateless_ret {A} (a : A) : stateless (ret a).
Proof.
  intros kernels. exists (Ok a), []. intros log.
  unfold ret. rewrite app_nil_r. reflexivity.
Qed.

Lemma stateless_raise {A} (e : exception) : stateless (@raise A e).
Proof.
  intros kernels. exists (Raise e), []. intros log.
  unfold raise. rewrite app_nil_r. reflexivity.
Qed.

Lemma stateless_lift {A} (r : result A) : stateless (lift r).
Proof.
  intros kernels. exists r, []. intros log.
  unfold lift. rewrite app_nil_r. reflexivity.
Qed.

Lemma stateless_read : stateless read_KERNELS.
Proof.
  intros kernels. exists (Ok kernels), []. intros log.
  unfold read_KERNELS. rewrite app_nil_r. reflexivity.
Qed.

Lemma stateless_invoke (f : resize_op) (clip : VideoNode) (w h : option Z) :
  stateless (invoke core_resize f clip w h).
Proof.
  intros kernels. exists (core_resize f clip w h), [mkCall f clip w h].
  intros log. reflexivity.
Qed.

Lemma stateless_bind {A B} (m : M A) (k : A -> M B) :
  stateless m -> (forall a, stateless (k a)) -> stateless (bind m k).
Proof.
  intros Hm Hk kernels. destruct (Hm kernels) as (r & evs & Hrun).
  destruct r as [a | e].
  - destruct (Hk a kernels) as (r' & evs' & Hrun').
    exists r', (evs ++ evs')%list. intros log. unfold bind.
    rewrite Hrun, Hrun', app_assoc. reflexivity.
  - exists (Raise e), evs. intros log. unfold bind.
    rewrite Hrun. reflexivity.
Qed.

Lemma stateless_pick_resizer (kernel : string) :
  stateless (_pick_resizer kernel).
Proof.
  unfold _pick_resizer. apply stateless_bind; [apply stateless_read |].
  intros d. destruct (dict_get d (lower kernel));
    [apply stateless_ret | apply stateless_raise].
Qed.

Lemma stateless_scale (clip : VideoNode) (s : number) (kernel : string) :
  stateless (scale core_resize clip s kernel).
Proof.
  unfold scale. destruct (py_le0 s); [apply stateless_raise |].
  repeat (apply stateless_bind; [apply stateless_lift | intros ?]).
  apply stateless_bind.
  - destruct (format clip) as [fmt |]; [| apply stateless_ret].
    repeat (apply stateless_bind; [apply stateless_lift | intros ?]).
    apply stateless_ret.
  - intros [w h]. apply stateless_bind; [apply stateless_pick_resizer |].
    intros f. apply stateless_invoke.
Qed.

Lemma stateless_pixel (clip : VideoNode) (w h : option Z) (kernel : string) :
  stateless (pixel core_resize clip w h kernel).
Proof.
  unfold pixel. apply stateless_bind; [apply stateless_pick_resizer |].
  intros f. apply stateless_invoke.
Qed.

(* ------------------------------------------------------------------ *)
(** *** Moduli *)

Lemma moduli_of_format (clip : VideoNode) (fmt : VideoFormat) :
  format clip = Some fmt ->
  0 <= subsampling_w fmt -> 0 <= subsampling_h fmt ->
  moduli clip = Ok (2 ^ subsampling_w fmt, 2 ^ subsampling_h fmt).
Proof.
  intros Hf Hw Hh. unfold moduli.
  rewrite Hf, (lshift_1 _ Hw), (lshift_1 _ Hh). reflexivity.
Qed.

Lemma moduli_inv (clip : VideoNode) (fmt : VideoFormat) (mw mh : Z) :
  format clip = Some fmt -> moduli clip = Ok (mw, mh) ->
  py_lshift 1 (subsampling_w fmt) = Ok mw /\
  py_lshift 1 (subsampling_h fmt) = Ok mh.
Proof.
  intros Hf. unfold moduli. rewrite Hf.
  destruct (py_lshift 1 (subsampling_w fmt)) as [a | e]; [| discriminate].
  destruct (py_lshift 1 (subsampling_h fmt)) as [b | e]; [| discriminate].
  intros [= <- <-]. split; reflexivity.
Qed.

Lemma moduli_no_subsampling (clip : VideoNode) :
  no_subsampling clip -> moduli clip = Ok (1, 1).
Proof.
  unfold no_subsampling, moduli.
  destruct (format clip) as [fmt |]; [| reflexivity].
  intros [-> ->]. reflexivity.
Qed.

Lemma pick_ok_inv (kernel : string) (f : resize_op) (st : world) :
  _pick_resizer kernel st = (Ok f, st) ->
  dict_get (_KERNELS st) (lower kernel) = Some f.
Proof.
  rewrite pick_resizer_run.
  destruct (dict_get (_KERNELS st) (lower kernel)); [| discriminate].
  intros [= <-]. reflexivity.
Qed.

(** The run of [scale] once every step is known to succeed. *)
Lemma scale_happy (clip : VideoNode) (s : number) (kernel : string)
  (st : world) (f : resize_op) (fw fh mw mh : Z) :
  positive_scale s = true ->
  scaled_floor (width clip) s = Some fw ->
  scaled_floor (height clip) s = Some fh ->
  moduli clip = Ok (mw, mh) ->
  _pick_resizer kernel st = (Ok f, st) ->
  scale core_resize clip s kernel st =
  (core_resize f clip (Some (fit mw (Z.max 1 fw))) (Some (fit mh (Z.max 1 fh))),
   mkWorld (_KERNELS st)
     (invoked st ++ [mkCall f clip (Some (fit mw (Z.max 1 fw)))
                                   (Some (fit mh (Z.max 1 fh)))])).
Proof.
  intros Hs Hw Hh Hm Hk. rewrite scale_run.
  rewrite (positive_not_le0 s Hs).
  rewrite (provisional_floor _ _ _ Hw), (provisional_floor _ _ _ Hh), Hm.
  rewrite (pick_ok_inv _ _ _ Hk). reflexivity.
Qed.

(** A call that [scale] logs carries the fitted provisional sizes. *)
Lemma scale_call_dims (clip : VideoNode) (s : number) (kernel : string)
  (st st' : world) (r : result VideoNode) (c : invocation) :
  scale core_resize clip s kernel st = (r, st') ->
  invoked st' = (invoked st ++ [c])%list ->
  exists fw fh mw mh f,
    scaled_floor (width clip) s = Some fw /\
    scaled_floor (height clip) s = Some fh /\
    moduli clip = Ok (mw, mh) /\
    c = mkCall f clip (Some (fit mw (Z.max 1 fw))) (Some (fit mh (Z.max 1 fh))).
Proof.
  intros Hrun Hlog.
  destruct (scale_call_inv clip s kernel st st' r c Hrun Hlog)
    as (w0 & h0 & mw & mh & f & _ & Hw & Hh & Hm & _ & ->).
  destruct (provisional_defined _ _ _ Hw) as (fw & Hfw & ->).
  destruct (provisional_defined _ _ _ Hh) as (fh & Hfh & ->).
  exists fw, fh, mw, mh, f. repeat split; assumption.
Qed.

(* ================================================================== *)
(** ** The claims *)

(** C1. On an axis whose subsampling factor is above 0, [scale] passes the
    provisional dimension (the floor of dimension times factor, at least 1)
    rounded down to a multiple of [2 ^ factor], and never less than
    [2 ^ factor].  For a positive scale factor whose products with the two
    source dimensions are finite and a kernel name the lookup accepts, the
    call is made with such a width and such a height; and every call that
    [scale] makes on a clip with a format carries such a width and height. *)
Theorem scale_rounds_down_on_subsampled_axis
  (clip : VideoNode) (fmt : VideoFormat) (s : number) (kernel : string)
  (st : world) :
  format clip = Some fmt ->
  (forall (f : resize_op) (fw fh : Z),
     0 <= subsampling_w fmt -> 0 <= subsampling_h fmt ->
     positive_scale s = true ->
     scaled_floor (width clip) s = Some fw ->
     scaled_floor (height clip) s = Some fh ->
     _pick_resizer kernel st = (Ok f, st) ->
     exists w h,
       scale core_resize clip s kernel st =
         (core_resize f clip (Some w) (Some h),
          mkWorld (_KERNELS st)
            (invoked st ++ [mkCall f clip (Some w) (Some h)])) /\
       (0 < subsampling_w fmt ->
          rounded_down_to (2 ^ subsampling_w fmt) (Z.max 1 fw) w) /\
       (0 < subsampling_h fmt ->
          rounded_down_to (2 ^ subsampling_h fmt) (Z.max 1 fh) h)) /\
  (forall (r : result VideoNode) (st' : world) (c : invocation),
     scale core_resize clip s kernel st = (r, st') ->
     invoked st' = (invoked st ++ [c])%list ->
     exists fw fh w h,
       scaled_floor (width clip) s = Some fw /\
       scaled_floor (height clip) s = Some fh /\
       call_width c = Some w /\ call_height c = Some h /\
       (0 < subsampling_w fmt ->
          rounded_down_to (2 ^ subsampling_w fmt) (Z.max 1 fw) w) /\
       (0 < subsampling_h fmt ->
          rounded_down_to (2 ^ subsampling_h fmt) (Z.max 1 fh) h)).
Proof.
  intros Hf. split.
  - intros f fw fh Hsw Hsh Hs Hw Hh Hk.
    exists (fit (2 ^ subsampling_w fmt) (Z.max 1 fw)),
           (fit (2 ^ subsampling_h fmt) (Z.max 1 fh)).
    split; [| split].
    + apply scale_happy; try assumption.
      apply moduli_of_format; assumption.
    + intros Hpos. apply fit_rounds_down; lia.
    + intros Hpos. apply fit_rounds_down; lia.
  - intros r st' c Hrun Hlog.
    destruct (scale_call_dims clip s kernel st st' r c Hrun Hlog)
      as (fw & fh & mw & mh & f & Hw & Hh & Hm & ->).
    destruct (moduli_inv clip fmt mw mh Hf Hm) as [Hmw Hmh].
    exists fw, fh, (fit mw (Z.max 1 fw)), (fit mh (Z.max 1 fh)).
    cbn [call_width call_height].
    split; [exact Hw |]. split; [exact Hh |].
    split; [reflexivity |]. split; [reflexivity |]. split.
    + intros Hpos. rewrite lshift_1 in Hmw by lia. injection Hmw as <-.
      apply fit_rounds_down; lia.
    + intros Hpos. rewrite lshift_1 in Hmh by lia. injection Hmh as <-.
      apply fit_rounds_down; lia.
Qed.

(** C2. For a clip without chroma subsampling (factor 0 on both axes, or no
    format) and a positive scale factor, the width and height passed to the
    kernel are the floors of source width times factor and of source height
    times factor, each raised to 1 when smaller: the call is made with them
    once the two products are finite and the lookup accepts the kernel
    name, and every call that [scale] makes on such a clip carries them. *)
Theorem scale_dims_without_subsampling
  (clip : VideoNode) (s : number) (kernel : string) (st : world) :
  no_subsampling clip ->
  (forall (f : resize_op) (fw fh : Z),
     positive_scale s = true ->
     scaled_floor (width clip) s = Some fw ->
     scaled_floor (height clip) s = Some fh ->
     _pick_resizer kernel st = (Ok f, st) ->
     scale core_resize clip s kernel st =
       (core_resize f clip (Some (Z.max 1 fw)) (Some (Z.max 1 fh)),
        mkWorld (_KERNELS st)
          (invoked st ++
             [mkCall f clip (Some (Z.max 1 fw)) (Some (Z.max 1 fh))]))) /\
  (forall (r : result VideoNode) (st' : world) (c : invocation),
     scale core_resize clip s kernel st = (r, st') ->
     invoked st' = (invoked st ++ [c])%list ->
     exists fw fh,
       scaled_floor (width clip) s = Some fw /\
       scaled_floor (height clip) s = Some fh /\
       call_width c = Some (Z.max 1 fw) /\
       call_height c = Some (Z.max 1 fh)).
Proof.
  intros Hno. split.
  - intros f fw fh Hs Hw Hh Hk.
    rewrite (scale_happy clip s kernel st f fw fh 1 1 Hs Hw Hh
               (moduli_no_subsampling clip Hno) Hk).
    rewrite !fit_1. reflexivity.
  - intros r st' c Hrun Hlog.
    destruct (scale_call_dims clip s kernel st st' r c Hrun Hlog)
      as (fw & fh & mw & mh & f & Hw & Hh & Hm & ->).
    rewrite (moduli_no_subsampling clip Hno) in Hm. injection Hm as <- <-.
    exists fw, fh. rewrite !fit_1. repeat split; assumption.
Qed.

(** C3. For a scale factor at most 0, [scale] raises the value error
    "scale must be > 0" and leaves the world as it was: no resizer is
    called, whatever the clip and the kernel name. *)
Theorem scale_rejects_nonpositive
  (clip : VideoNode) (s : number) (kernel : string) (st : world) :
  nonpositive_scale s = true ->
  scale core_resize clip s kernel st =
    (Raise (ValueError "scale must be > 0"), st).
Proof.
  intros Hs. rewrite scale_run, <- nonpositive_le0, Hs. reflexivity.
Qed.

(** C4. A kernel name that matches one of the seven supported names up to
    case is looked up with success: the result is the resizer registered
    under the lower-cased name, and the world is left as it was. *)
Theorem pick_resizer_supported
  (kernel name : string) (log : list invocation) :
  In name supported_names ->
  eq_nocase kernel name = true ->
  exists op,
    lower kernel = name /\
    In (name, op) KERNELS_at_load /\
    _pick_resizer kernel (loaded log) = (Ok op, loaded log).
Proof.
  intros Hin Heq.
  destruct (dict_get_supported name Hin) as (op & Hreg & Hget).
  exists op. split; [apply matching_lower; assumption |].
  split; [exact Hreg |].
  rewrite pick_resizer_run. cbn [_KERNELS loaded].
  rewrite (matching_lower kernel name Hin Heq), Hget. reflexivity.
Qed.

(** C5. A kernel name that matches none of the supported names up to case
    makes the lookup raise a value error, and each of the seven supported
    names occurs in its message. *)
Theorem pick_resizer_unsupported
  (kernel : string) (log : list invocation) :
  unsupported kernel ->
  exists msg,
    _pick_resizer kernel (loaded log) = (Raise (ValueError msg), loaded log) /\
    msg = "Unknown kernel '" ++ kernel ++
          "'. Choose from: point, bilinear, bicubic, lanczos, spline16, spline36, spline64" /\
    forall name, In name supported_names -> contains name msg.
Proof.
  intros Hun.
  exists (unknown_kernel_message kernel KERNELS_at_load).
  split; [| split].
  - rewrite pick_resizer_run. cbn [_KERNELS loaded].
    rewrite (dict_get_unsupported _ (unsupported_lower kernel Hun)).
    reflexivity.
  - reflexivity.
  - intros name Hin. apply message_lists_names, Hin.
Qed.

(** C6. [pixel] hands the caller's width and height, whatever they are, to
    the resizer the lookup selects; it fails only where the lookup does. *)
Theorem pixel_passes_dimensions_through
  (clip : VideoNode) (w h : option Z) (kernel : string) (st : world) :
  match _pick_resizer kernel st with
  | (Ok f, _) =>
      pixel core_resize clip w h kernel st =
        (core_resize f clip w h,
         mkWorld (_KERNELS st) (invoked st ++ [mkCall f clip w h]))
  | (Raise e, _) =>
      pixel core_resize clip w h kernel st = (Raise e, st)
  end.
Proof.
  rewrite pixel_run, pick_resizer_run.
  destruct (dict_get (_KERNELS st) (lower kernel)); reflexivity.
Qed.

(** C7. For a clip of width 101 with horizontal subsampling factor 1, the
    scale factor 0.5 gives the provisional width 50, a multiple of 2, and
    50 is the width passed to the kernel. *)
Theorem scale_half_of_101
  (clip : VideoNode) (fmt : VideoFormat) (kernel : string)
  (f : resize_op) (fh : Z) (st : world) :
  width clip = 101 ->
  format clip = Some fmt ->
  subsampling_w fmt = 1 ->
  0 <= subsampling_h fmt ->
  scaled_floor (height clip) (PyFloat half) = Some fh ->
  _pick_resizer kernel st = (Ok f, st) ->
  scaled_floor 101 (PyFloat half) = Some 50 /\
  (2 | 50) /\
  exists h,
    scale core_resize clip (PyFloat half) kernel st =
      (core_resize f clip (Some 50) (Some h),
       mkWorld (_KERNELS st)
         (invoked st ++ [mkCall f clip (Some 50) (Some h)])).
Proof.
  intros Hw Hf Hsw Hsh Hh Hk.
  assert (H50 : scaled_floor 101 (PyFloat half) = Some 50)
    by (vm_compute; reflexivity).
  split; [exact H50 |].
  split; [exists 25; reflexivity |].
  exists (fit (2 ^ subsampling_h fmt) (Z.max 1 fh)).
  rewrite (scale_happy clip (PyFloat half) kernel st f 50 fh
             (2 ^ 1) (2 ^ subsampling_h fmt)); try assumption.
  - reflexivity.
  - reflexivity.
  - rewrite Hw. exact H50.
  - rewrite <- Hsw. apply moduli_of_format; [assumption | lia | assumption].
Qed.

(** C8. [scale] and [pixel] are stateless: run on the same arguments with
    the same registry, after whatever calls were made before, each gives
    the same answer, makes the same framework call (at most one) and leaves
    the registry as it found it. *)
Theorem entry_points_stateless
  (clip : VideoNode) (s : number) (w h : option Z) (kernel : string)
  (kernels : list (string * resize_op)) (log1 log2 : list invocation) :
  (exists r evs,
     scale core_resize clip s kernel (mkWorld kernels log1)
       = (r, mkWorld kernels (log1 ++ evs)%list) /\
     scale core_resize clip s kernel (mkWorld kernels log2)
       = (r, mkWorld kernels (log2 ++ evs)%list) /\
     (List.length evs <= 1)%nat) /\
  (exists r evs,
     pixel core_resize clip w h kernel (mkWorld kernels log1)
       = (r, mkWorld kernels (log1 ++ evs)%list) /\
     pixel core_resize clip w h kernel (mkWorld kernels log2)
       = (r, mkWorld kernels (log2 ++ evs)%list) /\
     (List.length evs <= 1)%nat).
Proof.
  split.
  - destruct (stateless_scale clip s kernel kernels) as (r & evs & Hrun).
    exists r, evs. split; [apply Hrun | split; [apply Hrun |]].
    specialize (Hrun []). rewrite scale_run in Hrun. cbn [_KERNELS invoked] in Hrun.
    destruct (py_le0 s);
      [| destruct (provisional (width clip) s);
         [destruct (provisional (height clip) s);
          [destruct (moduli clip) as [[mw mh] |];
           [destruct (dict_get kernels (lower kernel)) |] |] |]];
      injection Hrun as _ <-; cbn; lia.
  - destruct (stateless_pixel clip w h kernel kernels) as (r & evs & Hrun).
    exists r, evs. split; [apply Hrun | split; [apply Hrun |]].
    specialize (Hrun []). rewrite pixel_run in Hrun. cbn [_KERNELS invoked] in Hrun.
    destruct (dict_get kernels (lower kernel));
      injection Hrun as _ <-; cbn; lia.
Qed.

(** C9. In [scale] the check of the factor comes before the lookup of the
    kernel: with a factor at most 0 and a kernel name no supported name
    matches, the error raised is "scale must be > 0", which is not the error
    the lookup raises for that name. *)
Theorem scale_checks_factor_before_kernel
  (clip : VideoNode) (s : number) (kernel : string) (log : list invocation) :
  nonpositive_scale s = true ->
  unsupported kernel ->
  scale core_resize clip s kernel (loaded log) =
    (Raise (ValueError "scale must be > 0"), loaded log) /\
  exists e,
    _pick_resizer kernel (loaded log) = (Raise e, loaded log) /\
    e <> ValueError "scale must be > 0".
Proof.
  intros Hs Hun. split.
  - rewrite scale_run, <- nonpositive_le0, Hs. reflexivity.
  - exists (ValueError (unknown_kernel_message kernel KERNELS_at_load)).
    split.
    + rewrite pick_resizer_run. cbn [_KERNELS loaded].
      rewrite (dict_get_unsupported _ (unsupported_lower kernel Hun)).
      reflexivity.
    + unfold unknown_kernel_message. cbn. discriminate.
Qed.

(** C10. Every width and height [scale] passes to a kernel is at least 1,
    and at least [2 ^ factor] on an axis whose subsampling factor is above
    0; there it is [2 ^ factor] whenever the provisional dimension (the
    floor of dimension times factor, at least 1) is smaller than that, so
    the final dimension can exceed the provisional one: half of a 3 x 3
    clip with factor 1 on both axes is 2 x 2, the floor being 1. *)
Theorem scale_dims_at_least_modulus :
  (forall (clip : VideoNode) (s : number) (kernel : string)
          (st st' : world) (r : result VideoNode) (c : invocation),
     scale core_resize clip s kernel st = (r, st') ->
     invoked st' = (invoked st ++ [c])%list ->
     exists w h,
       call_width c = Some w /\ call_height c = Some h /\
       1 <= w /\ 1 <= h /\
       forall fmt, format clip = Some fmt ->
         (0 < subsampling_w fmt ->
            2 ^ subsampling_w fmt <= w /\
            forall fw, scaled_floor (width clip) s = Some fw ->
                       Z.max 1 fw < 2 ^ subsampling_w fmt ->
                       w = 2 ^ subsampling_w fmt) /\
         (0 < subsampling_h fmt ->
            2 ^ subsampling_h fmt <= h /\
            forall fh, scaled_floor (height clip) s = Some fh ->
                       Z.max 1 fh < 2 ^ subsampling_h fmt ->
                       h = 2 ^ subsampling_h fmt)) /\
  (scaled_floor 3 (PyFloat half) = Some 1 /\
   scale core_resize yuv420_3x3 (PyFloat half) "point" (loaded []) =
     (core_resize Point yuv420_3x3 (Some 2) (Some 2),
      loaded [mkCall Point yuv420_3x3 (Some 2) (Some 2)])).
Proof.
  split; [| split; vm_compute; reflexivity].
  intros clip s kernel st st' r c Hrun Hlog.
  destruct (scale_call_inv clip s kernel st st' r c Hrun Hlog)
    as (w0 & h0 & mw & mh & f & _ & Hw & Hh & Hm & _ & ->).
  pose proof (provisional_ge_1 _ _ _ Hw) as Hw1.
  pose proof (provisional_ge_1 _ _ _ Hh) as Hh1.
  exists (fit mw w0), (fit mh h0). cbn [call_width call_height].
  split; [reflexivity |]. split; [reflexivity |].
  split; [apply fit_ge_1, Hw1 |]. split; [apply fit_ge_1, Hh1 |].
  intros fmt Hf. destruct (moduli_inv clip fmt mw mh Hf Hm) as [Hmw Hmh].
  split; intros Hpos.
  - rewrite lshift_1 in Hmw by lia. injection Hmw as <-.
    destruct (fit_rounds_down (subsampling_w fmt) w0 Hpos Hw1)
      as (_ & Hge & _ & Hsmall).
    split; [exact Hge |]. intros fw Hfw Hlt.
    rewrite (provisional_floor _ _ _ Hfw) in Hw. injection Hw as <-.
    apply Hsmall, Hlt.
  - rewrite lshift_1 in Hmh by lia. injection Hmh as <-.
    destruct (fit_rounds_down (subsampling_h fmt) h0 Hpos Hh1)
      as (_ & Hge & _ & Hsmall).
    split; [exact Hge |]. intros fh Hfh Hlt.
    rewrite (provisional_floor _ _ _ Hfh) in Hh. injection Hh as <-.
    apply Hsmall, Hlt.
Qed.

End Runs.

(* ================================================================== *)
(** ** Runs on concrete inputs *)

Example lower_mixed_case : lower "LaNcZoS" = "lanczos".
Proof. reflexivity. Qed.

(** U+00C9 (E acute) is lowered to U+00E9, U+00D7 (the multiplication sign)
    stays. *)
Example lower_latin1 :
  lower (String (ascii_of_N 201) (String (ascii_of_N 215) "X")) =
  String (ascii_of_N 233) (String (ascii_of_N 215) "x").
Proof. reflexivity. Qed.

Example float_of_101 :
  py_float_of_int 101 = Ok (S754_finite false 7107243161944064 (-46)).
Proof. vm_compute. reflexivity. Qed.

(** The product is the rounded one: six times the double nearest to 1/3 is
    2.0 exactly, so its floor is 2. *)
Example six_thirds : scaled_floor 6 (PyFloat third) = Some 2.
Proof. vm_compute. reflexivity. Qed.

Example scale_by_int :
  scale sized_node yuv420_101x57 (PyInt 2) "spline36" (loaded []) =
  (Ok (mkNode 202 114 (Some (mkFormat 1 1))),
   loaded [mkCall Spline36 yuv420_101x57 (Some 202) (Some 114)]).
Proof. vm_compute. reflexivity. Qed.

(** Plus infinity passes the check of the factor; [int] then refuses the
    product. NaN passes it too. *)
Example scale_by_infinity :
  scale sized_node yuv420_101x57 (PyFloat (S754_infinity false)) "point"
    (loaded []) =
  (Raise (OverflowError "cannot convert float infinity to integer"), loaded []).
Proof. vm_compute. reflexivity. Qed.

Example scale_by_nan :
  scale sized_node yuv420_101x57 (PyFloat S754_nan) "point" (loaded []) =
  (Raise (ValueError "cannot convert float NaN to integer"), loaded []).
Proof. vm_compute. reflexivity. Qed.

Example pixel_none :
  pixel sized_node yuv420_101x57 None (Some (-4)) "POINT" (loaded []) =
  (Raise (FrameworkError "Resize: bad dimensions"),
   loaded [mkCall Point yuv420_101x57 None (Some (-4))]).
Proof. vm_compute. reflexivity. Qed.

Lemma scale_rounds_down_on_subsampled_axis_witness :
  exists w h,
    scale sized_node yuv420_101x57 (PyFloat half) "Lanczos" (loaded []) =
      (sized_node Lanczos yuv420_101x57 (Some w) (Some h),
       loaded [mkCall Lanczos yuv420_101x57 (Some w) (Some h)]) /\
    (0 < 1 -> rounded_down_to (2 ^ 1) (Z.max 1 50) w) /\
    (0 < 1 -> rounded_down_to (2 ^ 1) (Z.max 1 28) h).
Proof.
  apply (proj1 (scale_rounds_down_on_subsampled_axis sized_node
                  yuv420_101x57 (mkFormat 1 1) (PyFloat half) "Lanczos"
                  (loaded []) eq_refl) Lanczos 50 28).
  - cbn. lia.
  - cbn. lia.
  - reflexivity.
  - vm_compute. reflexivity.
  - vm_compute. reflexivity.
  - reflexivity.
Defined.

Lemma scale_dims_without_subsampling_witness :
  scale sized_node yuv444_6x6 (PyFloat third) "point" (loaded []) =
    (sized_node Point yuv444_6x6 (Some (Z.max 1 2)) (Some (Z.max 1 2)),
     loaded [mkCall Point yuv444_6x6 (Some (Z.max 1 2)) (Some (Z.max 1 2))]).
Proof.
  apply (proj1 (scale_dims_without_subsampling sized_node yuv444_6x6
                  (PyFloat third) "point" (loaded [])
                  (conj eq_refl eq_refl)) Point 2 2).
  - reflexivity.
  - vm_compute. reflexivity.
  - vm_compute. reflexivity.
  - reflexivity.
Defined.

Lemma scale_rejects_nonpositive_witness :
  scale sized_node yuv420_101x57 (PyFloat (S754_zero true)) "bilinear"
    (loaded []) =
  (Raise (ValueError "scale must be > 0"), loaded []).
Proof.
  apply (scale_rejects_nonpositive sized_node yuv420_101x57
           (PyFloat (S754_zero true)) "bilinear" (loaded [])).
  reflexivity.
Defined.

Lemma pick_resizer_supported_witness :
  exists op,
    lower "LaNcZoS" = "lanczos" /\
    In ("lanczos", op) KERNELS_at_load /\
    _pick_resizer "LaNcZoS" (loaded []) = (Ok op, loaded []).
Proof.
  apply (pick_resizer_supported "LaNcZoS" "lanczos" []).
  - cbn. tauto.
  - reflexivity.
Defined.

Lemma pick_resizer_unsupported_witness :
  exists msg,
    _pick_resizer "BiCubik" (loaded []) = (Raise (ValueError msg), loaded []) /\
    msg = "Unknown kernel '" ++ "BiCubik" ++
          "'. Choose from: point, bilinear, bicubic, lanczos, spline16, spline36, spline64" /\
    forall name, In name supported_names -> contains name msg.
Proof.
  apply (pick_resizer_unsupported "BiCubik" []). no_match.
Defined.

Lemma scale_half_of_101_witness :
  scaled_floor 101 (PyFloat half) = Some 50 /\
  (2 | 50) /\
  exists h,
    scale sized_node yuv420_101x57 (PyFloat half) "bilinear" (loaded []) =
      (sized_node Bilinear yuv420_101x57 (Some 50) (Some h),
       loaded [mkCall Bilinear yuv420_101x57 (Some 50) (Some h)]).
Proof.
  apply (scale_half_of_101 sized_node yuv420_101x57 (mkFormat 1 1)
           "bilinear" Bilinear 28 (loaded [])).
  - reflexivity.
  - reflexivity.
  - reflexivity.
  - cbn. lia.
  - vm_compute. reflexivity.
  - reflexivity.
Defined.

Lemma scale_checks_factor_before_kernel_witness :
  scale sized_node yuv420_101x57 (PyInt 0) "nearest" (loaded []) =
    (Raise (ValueError "scale must be > 0"), loaded []) /\
  exists e,
    _pick_resizer "nearest" (loaded []) = (Raise e, loaded []) /\
    e <> ValueError "scale must be > 0".
Proof.
  apply (scale_checks_factor_before_kernel sized_node yuv420_101x57
           (PyInt 0) "nearest" []).
  - reflexivity.
  - no_match.
Defined.

Lemma scale_dims_at_least_modulus_witness :
  exists w h,
    Some 2 = Some w /\ Some 2 = Some h /\ 1 <= w /\ 1 <= h /\
    forall fmt, Some (mkFormat 1 1) = Some fmt ->
      (0 < subsampling_w fmt ->
         2 ^ subsampling_w fmt <= w /\
         forall fw, scaled_floor 3 (PyFloat half) = Some fw ->
                    Z.max 1 fw < 2 ^ subsampling_w fmt ->
                    w = 2 ^ subsampling_w fmt) /\
      (0 < subsampling_h fmt ->
         2 ^ subsampling_h fmt <= h /\
         forall fh, scaled_floor 3 (PyFloat half) = Some fh ->
                    Z.max 1 fh < 2 ^ subsampling_h fmt ->
                    h = 2 ^ subsampling_h fmt).
Proof.
  apply (proj1 (scale_dims_at_least_modulus sized_node)
           yuv420_3x3 (PyFloat half) "point" (loaded [])
           (loaded [mkCall Point yuv420_3x3 (Some 2) (Some 2)])
           (Ok (mkNode 2 2 (Some (mkFormat 1 1))))
           (mkCall Point yuv420_3x3 (Some 2) (Some 2))).
  - vm_compute. reflexivity.
  - reflexivity.
Defined.

(* ================================================================== *)
(** ** Exact products: ints below 2^53 and powers of two *)

Lemma digits2_bounds (p : positive) :
  2 ^ (Zpos (digits2_pos p) - 1) <= Zpos p < 2 ^ Zpos (digits2_pos p).
Proof.
  induction p as [p IH | p IH |]; cbn [digits2_pos].
  - rewrite Pos2Z.inj_succ.
    replace (Z.succ (Zpos (digits2_pos p)) - 1) with (Zpos (digits2_pos p)) by lia.
    rewrite Z.pow_succ_r by lia.
    assert (H : 2 ^ Zpos (digits2_pos p) = 2 * 2 ^ (Zpos (digits2_pos p) - 1)).
    { rewrite <- Z.pow_succ_r by lia. f_equal. lia. }
    rewrite (Pos2Z.inj_xI p). lia.
  - rewrite Pos2Z.inj_succ.
    replace (Z.succ (Zpos (digits2_pos p)) - 1) with (Zpos (digits2_pos p)) by lia.
    rewrite Z.pow_succ_r by lia.
    assert (H : 2 ^ Zpos (digits2_pos p) = 2 * 2 ^ (Zpos (digits2_pos p) - 1)).
    { rewrite <- Z.pow_succ_r by lia. f_equal. lia. }
    rewrite (Pos2Z.inj_xO p). lia.
  - cbn. lia.
Qed.

Lemma digits2_le_53 (p : positive) :
  Zpos p < 2 ^ 53 -> Zpos (digits2_pos p) <= 53.
Proof.
  intros Hp. pose proof (digits2_bounds p) as [Hlo _].
  assert (H : 2 ^ (Zpos (digits2_pos p) - 1) < 2 ^ 53) by lia.
  apply Z.pow_lt_mono_r_iff in H; lia.
Qed.

Lemma iter_xO_spec (p n : positive) :
  digits2_pos (Pos.iter xO p n) = (digits2_pos p + n)%positive /\
  Zpos (Pos.iter xO p n) = Zpos p * 2 ^ Zpos n.
Proof.
  induction n as [| n IH] using Pos.peano_ind.
  - cbn [Pos.iter digits2_pos]. split; [symmetry; apply Pos.add_1_r | lia].
  - rewrite Pos.iter_succ. cbn [digits2_pos]. destruct IH as [IHd IHv].
    split.
    + rewrite IHd. symmetry. apply Pos.add_succ_r.
    + rewrite (Pos2Z.inj_xO (Pos.iter xO p n)), IHv, Pos2Z.inj_succ.
      rewrite Z.pow_succ_r by lia. lia.
Qed.

(** A 53-digit mantissa with an exponent in range is kept as it is. *)
Lemma round_normal (sx : bool) (q : positive) (e : Z) :
  digits2_pos q = 53%positive -> -1074 <= e <= 971 ->
  binary_round_aux prec emax sx (Zpos q) e loc_Exact = S754_finite sx q e.
Proof.
  intros Hq He. unfold binary_round_aux, shr_fexp.
  cbn [Zdigits2 shr_record_of_loc]. rewrite Hq.
  assert (H0 : fexp prec emax (53 + e) - e = 0).
  { unfold fexp, emin, prec, emax. lia. }
  rewrite H0. cbn [shr shr_m loc_of_shr_record round_nearest_even Zdigits2 shr_record_of_loc].
  rewrite Hq, H0. cbn [shr shr_m].
  unfold emax, prec. destruct (Z.leb_spec e (1024 - 53)); [reflexivity | lia].
Qed.

(** [float(z)] for [0 < z < 2^53]: no rounding. *)
Lemma float_of_small_int (p : positive) :
  Zpos p < 2 ^ 53 ->
  exists q e,
    py_float_of_int (Zpos p) = Ok (S754_finite false q e) /\
    digits2_pos q = 53%positive /\ -52 <= e <= 0 /\
    Zpos q = Zpos p * 2 ^ (- e).
Proof.
  intros Hp. pose proof (digits2_le_53 p Hp) as HD.
  unfold py_float_of_int, binary_normalize, binary_round, shl_align.
  assert (Hf : fexp prec emax (Zpos (digits2_pos p) + 0)
               = Zpos (digits2_pos p) - 53).
  { unfold fexp, emin, prec, emax. lia. }
  rewrite Hf.
  destruct (Zpos (digits2_pos p) - 53 - 0) as [| d | d] eqn:E; try lia.
  - assert (Hq : digits2_pos p = 53%positive) by lia.
    exists p, 0. rewrite (round_normal false p 0 Hq) by lia.
    repeat split; lia.
  - destruct (iter_xO_spec p d) as [Hd Hv].
    assert (Hq : digits2_pos (Pos.iter xO p d) = 53%positive) by lia.
    exists (Pos.iter xO p d), (Zpos (digits2_pos p) - 53).
    rewrite (round_normal false _ _ Hq) by lia.
    repeat split; try lia.
    rewrite Hv. do 2 f_equal. lia.
Qed.

Lemma shr_1_even (p : positive) :
  shr_1 (Build_shr_record (Zpos (xO p)) false false)
  = Build_shr_record (Zpos p) false false.
Proof. reflexivity. Qed.

(** Times [2^k]: the mantissa stays, the exponent moves. *)
Lemma mul_pow2 (q : positive) (e k : Z) :
  digits2_pos q = 53%positive -> -1074 <= e + k <= 971 ->
  SFmul prec emax (S754_finite false q e) (pow2_float k)
  = S754_finite false q (e + k).
Proof.
  intros Hq He. unfold pow2_float. cbn [SFmul xorb].
  rewrite Pos.mul_comm. cbn [Pos.mul].
  unfold binary_round_aux, shr_fexp.
  cbn [Zdigits2 digits2_pos shr_record_of_loc]. rewrite Hq.
  cbn [PosDef.Pos.succ].
  assert (H52 : fexp prec emax (105 + (e + (k - 52))) - (e + (k - 52)) = 52).
  { unfold fexp, emin, prec, emax. lia. }
  rewrite H52. cbn [shr iter_pos]. rewrite !shr_1_even.
  cbn [shr_m loc_of_shr_record round_nearest_even Zdigits2 shr_record_of_loc].
  rewrite Hq.
  assert (H0 : fexp prec emax (53 + (e + (k - 52) + 52))
               - (e + (k - 52) + 52) = 0).
  { unfold fexp, emin, prec, emax. lia. }
  rewrite H0. cbn [shr shr_m].
  replace (e + (k - 52) + 52) with (e + k) by lia.
  unfold emax, prec. destruct (Z.leb_spec (e + k) (1024 - 53)); [reflexivity | lia].
Qed.

(** The floor of [d * 2^k], formed in doubles, is the exact one. *)
Lemma scaled_floor_pow2 (d k : Z) :
  0 <= d < 2 ^ 53 -> -1000 <= k <= 900 ->
  scaled_floor d (PyFloat (pow2_float k)) = Some (pow2_scaled d k).
Proof.
  intros Hd Hk. destruct d as [| p | p]; [| | lia].
  - unfold pow2_scaled. cbn.
    destruct (0 <=? k); reflexivity.
  - destruct (float_of_small_int p (proj2 Hd)) as (q & e & Hf & Hq & He & Hv).
    unfold scaled_floor, py_mul, py_float. rewrite Hf.
    rewrite (mul_pow2 q e k Hq) by lia.
    cbn [float_floor cond_Zopp]. f_equal. unfold pow2_scaled. rewrite Hv.
    destruct (Z.leb_spec 0 (e + k)) as [Hek | Hek].
    + destruct (Z.leb_spec 0 k) as [_ | Hneg]; [| lia].
      rewrite <- Z.mul_assoc, <- Z.pow_add_r by lia. do 2 f_equal. lia.
    + destruct (Z.leb_spec 0 k) as [Hpos | Hneg].
      * replace (- e) with (k + - (e + k)) by lia.
        rewrite Z.pow_add_r by lia. rewrite Z.mul_assoc.
        apply Z.div_mul. apply Z.pow_nonzero; lia.
      * replace (- (e + k)) with (- k + - e) by lia.
        rewrite Z.pow_add_r by lia.
        apply Z.div_mul_cancel_r; apply Z.pow_nonzero; lia.
Qed.

(* ================================================================== *)
(** ** Moduli and fitting, further *)

Lemma moduli_well_formed (clip : VideoNode) :
  well_formed clip -> moduli clip = Ok (modulus_w clip, modulus_h clip).
Proof.
  unfold well_formed, moduli, modulus_w, modulus_h.
  destruct (format clip) as [fmt |]; [| reflexivity].
  intros [Hw Hh]. rewrite (lshift_1 _ Hw), (lshift_1 _ Hh). reflexivity.
Qed.

Lemma modulus_ge_1 (clip : VideoNode) :
  well_formed clip -> 1 <= modulus_w clip /\ 1 <= modulus_h clip.
Proof.
  unfold well_formed, modulus_w, modulus_h.
  destruct (format clip) as [fmt |]; [| lia].
  intros [Hw Hh].
  pose proof (Z.pow_pos_nonneg 2 (subsampling_w fmt) ltac:(lia) Hw).
  pose proof (Z.pow_pos_nonneg 2 (subsampling_h fmt) ltac:(lia) Hh).
  lia.
Qed.

Lemma lshift_inv (n m : Z) :
  py_lshift 1 n = Ok m -> 0 <= n /\ m = 2 ^ n.
Proof.
  unfold py_lshift. destruct (Z.ltb_spec n 0) as [H | H]; [discriminate |].
  rewrite Z.shiftl_1_l. intros [= <-]. split; [exact H | reflexivity].
Qed.

Lemma moduli_ok_inv (clip : VideoNode) (mw mh : Z) :
  moduli clip = Ok (mw, mh) ->
  well_formed clip /\ mw = modulus_w clip /\ mh = modulus_h clip.
Proof.
  unfold well_formed, moduli, modulus_w, modulus_h.
  destruct (format clip) as [fmt |].
  - destruct (py_lshift 1 (subsampling_w fmt)) as [a | e] eqn:Ha; [| discriminate].
    destruct (py_lshift 1 (subsampling_h fmt)) as [b | e] eqn:Hb; [| discriminate].
    intros [= <- <-].
    destruct (lshift_inv _ _ Ha) as [? ->]. destruct (lshift_inv _ _ Hb) as [? ->].
    repeat split; assumption.
  - intros [= <- <-]. repeat split.
Qed.

(** A dimension that is a multiple of the modulus is left as it is. *)
Lemma fit_aligned (m d : Z) :
  1 <= m -> 1 <= d -> (m | d) -> fit m d = d.
Proof.
  intros Hm Hd Hdiv. unfold fit.
  destruct (Z.ltb_spec 1 m) as [H | H]; [| reflexivity].
  assert (Hmod : d mod m = 0) by (apply Z.mod_divide; [lia | exact Hdiv]).
  rewrite Hmod, Z.sub_0_r.
  apply Z.max_r. apply Z.divide_pos_le; [lia | exact Hdiv].
Qed.

(** What [fit] returns is a multiple of the modulus, and at least 1. *)
Lemma fit_is_aligned (m d : Z) :
  1 <= m -> 1 <= d -> 1 <= fit m d /\ (m | fit m d).
Proof.
  intros Hm Hd. split; [apply fit_ge_1, Hd |]. unfold fit.
  destruct (Z.ltb_spec 1 m) as [H | H].
  - pose proof (Z.div_mod d m ltac:(lia)) as Hdm.
    replace (d - d mod m) with (m * (d / m)) by lia.
    destruct (Z.max_spec m (m * (d / m))) as [[_ ->] | [_ ->]].
    + apply Z.divide_factor_l.
    + apply Z.divide_refl.
  - replace m with 1 by lia. apply Z.divide_1_l.
Qed.

Lemma fit_1_is_modulus (m : Z) : 1 <= m -> fit m 1 = m.
Proof.
  intros Hm. unfold fit. destruct (Z.ltb_spec 1 m) as [H | H]; [| lia].
  rewrite Z.mod_1_l by lia. lia.
Qed.

Lemma fit_monotone (m a b : Z) :
  1 <= m -> a <= b -> fit m a <= fit m b.
Proof.
  intros Hm Hab. unfold fit. destruct (Z.ltb_spec 1 m) as [H | H]; [| exact Hab].
  pose proof (Z.div_mod a m ltac:(lia)) as Ha.
  pose proof (Z.div_mod b m ltac:(lia)) as Hb.
  replace (a - a mod m) with (m * (a / m)) by lia.
  replace (b - b mod m) with (m * (b / m)) by lia.
  pose proof (Z.div_le_mono a b m ltac:(lia) Hab) as Hq.
  apply Z.max_le_compat_l. nia.
Qed.

Lemma scaled_floor_zero (s : number) :
  finite_positive s = true -> scaled_floor 0 s = Some 0.
Proof.
  destruct s as [z | [sg | sg | | sg m e]]; cbn; try discriminate.
  - reflexivity.
  - destruct sg; [discriminate | reflexivity].
Qed.

Lemma finite_positive_positive (s : number) :
  finite_positive s = true -> positive_scale s = true.
Proof.
  destruct s as [z | [sg | sg | | sg m e]]; cbn; try discriminate.
  - exact (fun H => H).
  - destruct sg; [discriminate | reflexivity].
Qed.

Lemma float_of_int_error (z : Z) (e : exception) :
  py_float_of_int z = Raise e ->
  e = OverflowError "int too large to convert to float".
Proof.
  unfold py_float_of_int.
  destruct (binary_normalize prec emax z 0 false); try discriminate.
  intros [= <-]. reflexivity.
Qed.

(** With NaN or plus infinity as factor a provisional size never comes
    about. *)
Lemma provisional_not_a_number (d : Z) (s : number) :
  nan_or_plus_infinity s = true ->
  exists e, provisional d s = Raise e /\ conversion_error e.
Proof.
  unfold provisional, py_mul, py_float, conversion_error.
  destruct s as [z | [sg | sg | | sg m e]]; cbn [nan_or_plus_infinity];
    try discriminate.
  - destruct sg; [discriminate |]. intros _.
    destruct (py_float_of_int d) as [f | e] eqn:Hf.
    + destruct f as [s1 | s1 | | s1 m1 e1]; cbn;
        eexists; (split; [reflexivity |]); tauto.
    + exists e. split; [reflexivity |]. left. apply (float_of_int_error d), Hf.
  - intros _. destruct (py_float_of_int d) as [f | e] eqn:Hf.
    + destruct f as [s1 | s1 | | s1 m1 e1]; cbn;
        eexists; (split; [reflexivity |]); tauto.
    + exists e. split; [reflexivity |]. left. apply (float_of_int_error d), Hf.
Qed.

(* ================================================================== *)
(** ** Further properties of [scale], [pixel] and [_pick_resizer] *)

Section Further.

Variable core_resize :
  resize_op -> VideoNode -> option Z -> option Z -> result VideoNode.

(** X1. A factor that is NaN or plus infinity gets past the check
    [scale <= 0], and [scale] then fails in the conversions on the way to
    the provisional width: it raises one of Python's three conversion
    errors, not "scale must be > 0", and calls no kernel, whatever the clip
    and the kernel name. *)
Theorem scale_rejects_nan_and_infinity
  (clip : VideoNode) (s : number) (kernel : string) (st : world) :
  nan_or_plus_infinity s = true ->
  py_le0 s = false /\
  exists e,
    scale core_resize clip s kernel st = (Raise e, st) /\
    conversion_error e.
Proof.
  intros Hs.
  assert (Hle : py_le0 s = false).
  { destruct s as [z | [sg | sg | | sg m e]]; try discriminate.
    - destruct sg; [discriminate | reflexivity].
    - reflexivity. }
  split; [exact Hle |].
  destruct (provisional_not_a_number (width clip) s Hs) as (e & He & Hconv).
  exists e. split; [| exact Hconv].
  rewrite scale_run, Hle, He. reflexivity.
Qed.

(** X2. With a kernel name that no supported name matches, neither entry
    point calls a kernel: [scale] raises (the error of its own checks or
    the unknown-kernel error) and [pixel] raises the unknown-kernel error,
    both leaving the log of calls as it was. *)
Theorem unsupported_kernel_never_called
  (clip : VideoNode) (s : number) (w h : option Z) (kernel : string)
  (log : list invocation) :
  unsupported kernel ->
  (exists e, scale core_resize clip s kernel (loaded log) = (Raise e, loaded log)) /\
  pixel core_resize clip w h kernel (loaded log) =
    (Raise (ValueError (unknown_kernel_message kernel KERNELS_at_load)),
     loaded log).
Proof.
  intros Hun.
  pose proof (dict_get_unsupported _ (unsupported_lower kernel Hun)) as Hget.
  split.
  - rewrite scale_run. cbn [_KERNELS loaded]. rewrite Hget.
    destruct (py_le0 s); [eexists; reflexivity |].
    destruct (provisional (width clip) s); [| eexists; reflexivity].
    destruct (provisional (height clip) s); [| eexists; reflexivity].
    destruct (moduli clip) as [[mw mh] |]; eexists; reflexivity.
  - rewrite pixel_run. cbn [_KERNELS loaded]. rewrite Hget. reflexivity.
Qed.

(** X3. For a factor [2^k] held as a double (0.25, 0.5, 1.0, 2.0, ...) and
    source dimensions from 0 to below [2^53], the double arithmetic of
    [scale] loses nothing: the kernel is called with the exact
    [floor(dimension * 2^k)], raised to 1 and fitted to the modulus of the
    axis. *)
Theorem scale_by_power_of_two
  (clip : VideoNode) (k : Z) (kernel : string) (f : resize_op) (st : world) :
  well_formed clip ->
  0 <= width clip < 2 ^ 53 -> 0 <= height clip < 2 ^ 53 ->
  -1000 <= k <= 900 ->
  _pick_resizer kernel st = (Ok f, st) ->
  let w := fit (modulus_w clip) (Z.max 1 (pow2_scaled (width clip) k)) in
  let h := fit (modulus_h clip) (Z.max 1 (pow2_scaled (height clip) k)) in
  scale core_resize clip (PyFloat (pow2_float k)) kernel st =
    (core_resize f clip (Some w) (Some h),
     mkWorld (_KERNELS st) (invoked st ++ [mkCall f clip (Some w) (Some h)])).
Proof.
  intros Hwf Hw Hh Hk Hpick w h. subst w h.
  apply scale_happy.
  - reflexivity.
  - apply scaled_floor_pow2; assumption.
  - apply scaled_floor_pow2; assumption.
  - apply moduli_well_formed, Hwf.
  - exact Hpick.
Qed.

(** X4. Scaling a clip whose dimensions are multiples of their moduli by
    [2^k] with [k >= 0], the default factor 1.0 included, asks for exactly
    [2^k] times the source size; with 1.0, for the source size itself. *)
Theorem scale_up_keeps_alignment
  (clip : VideoNode) (k : Z) (kernel : string) (f : resize_op) (st : world) :
  well_formed clip -> aligned clip ->
  width clip < 2 ^ 53 -> height clip < 2 ^ 53 ->
  0 <= k <= 900 ->
  _pick_resizer kernel st = (Ok f, st) ->
  scale core_resize clip (PyFloat (pow2_float k)) kernel st =
    (core_resize f clip (Some (width clip * 2 ^ k)) (Some (height clip * 2 ^ k)),
     mkWorld (_KERNELS st)
       (invoked st ++ [mkCall f clip (Some (width clip * 2 ^ k))
                                     (Some (height clip * 2 ^ k))])).
Proof.
  intros Hwf (Hw1 & Hh1 & Hdw & Hdh) Hw Hh Hk Hpick.
  destruct (modulus_ge_1 clip Hwf) as [Hmw Hmh].
  pose proof (Z.pow_pos_nonneg 2 k ltac:(lia) ltac:(lia)) as Hpow.
  rewrite (scale_happy core_resize clip (PyFloat (pow2_float k)) kernel st f
             (width clip * 2 ^ k) (height clip * 2 ^ k)
             (modulus_w clip) (modulus_h clip)).
  - rewrite !Z.max_r by nia.
    rewrite !fit_aligned; try assumption; try nia.
    + reflexivity.
    + apply Z.divide_mul_l, Hdh.
    + apply Z.divide_mul_l, Hdw.
  - reflexivity.
  - rewrite scaled_floor_pow2 by lia. unfold pow2_scaled.
    destruct (Z.leb_spec 0 k); [reflexivity | lia].
  - rewrite scaled_floor_pow2 by lia. unfold pow2_scaled.
    destruct (Z.leb_spec 0 k); [reflexivity | lia].
  - apply moduli_well_formed, Hwf.
  - exact Hpick.
Qed.

(** X5. Scaling a clip whose dimensions are multiples of their moduli by an
    int factor [n >= 1] never fails before the call and asks for exactly
    [n] times the source size, however large the dimensions are. *)
Theorem scale_by_int_factor
  (clip : VideoNode) (n : Z) (kernel : string) (f : resize_op) (st : world) :
  well_formed clip -> aligned clip -> 1 <= n ->
  _pick_resizer kernel st = (Ok f, st) ->
  scale core_resize clip (PyInt n) kernel st =
    (core_resize f clip (Some (width clip * n)) (Some (height clip * n)),
     mkWorld (_KERNELS st)
       (invoked st ++ [mkCall f clip (Some (width clip * n))
                                     (Some (height clip * n))])).
Proof.
  intros Hwf (Hw1 & Hh1 & Hdw & Hdh) Hn Hpick.
  destruct (modulus_ge_1 clip Hwf) as [Hmw Hmh].
  rewrite (scale_happy core_resize clip (PyInt n) kernel st f
             (width clip * n) (height clip * n)
             (modulus_w clip) (modulus_h clip)).
  - rewrite !Z.max_r by nia.
    rewrite !fit_aligned; try assumption; try nia.
    + reflexivity.
    + apply Z.divide_mul_l, Hdh.
    + apply Z.divide_mul_l, Hdw.
  - cbn. apply Z.ltb_lt. lia.
  - reflexivity.
  - reflexivity.
  - apply moduli_well_formed, Hwf.
  - exact Hpick.
Qed.

(** X6. For a clip of variable size (width 0 and height 0) every positive
    factor that is a number, int or finite float, gives the provisional
    size 1 x 1, so the kernel is asked for the moduli of the two axes:
    1 x 1 without subsampling. *)
Theorem scale_variable_size_clip
  (clip : VideoNode) (s : number) (kernel : string) (f : resize_op)
  (st : world) :
  well_formed clip -> width clip = 0 -> height clip = 0 ->
  finite_positive s = true ->
  _pick_resizer kernel st = (Ok f, st) ->
  scale core_resize clip s kernel st =
    (core_resize f clip (Some (modulus_w clip)) (Some (modulus_h clip)),
     mkWorld (_KERNELS st)
       (invoked st ++ [mkCall f clip (Some (modulus_w clip))
                                     (Some (modulus_h clip))])).
Proof.
  intros Hwf Hw Hh Hs Hpick.
  destruct (modulus_ge_1 clip Hwf) as [Hmw Hmh].
  rewrite (scale_happy core_resize clip s kernel st f 0 0
             (modulus_w clip) (modulus_h clip)).
  - change (Z.max 1 0) with 1. rewrite !fit_1_is_modulus by assumption.
    reflexivity.
  - apply finite_positive_positive, Hs.
  - rewrite Hw. apply scaled_floor_zero, Hs.
  - rewrite Hh. apply scaled_floor_zero, Hs.
  - apply moduli_well_formed, Hwf.
  - exact Hpick.
Qed.

(** X7. What [scale] returns can be scaled again with the default factor
    1.0 without a change of size: when the framework answers a resize with
    a node of the size asked for and of the format of its source, a second
    [scale] on the returned clip asks for that clip's own width and
    height. *)
Theorem scale_again_keeps_size
  (clip clip' : VideoNode) (s : number) (kernel kernel' : string)
  (f' : resize_op) (st st' : world) :
  keeps_size_and_format core_resize ->
  scale core_resize clip s kernel st = (Ok clip', st') ->
  width clip' < 2 ^ 53 -> height clip' < 2 ^ 53 ->
  _pick_resizer kernel' st' = (Ok f', st') ->
  scale core_resize clip' (PyFloat (pow2_float 0)) kernel' st' =
    (core_resize f' clip' (Some (width clip')) (Some (height clip')),
     mkWorld (_KERNELS st')
       (invoked st' ++ [mkCall f' clip' (Some (width clip'))
                                        (Some (height clip'))])).
Proof.
  intros Hcore Hrun Hw Hh Hpick.
  rewrite scale_run in Hrun.
  destruct (py_le0 s); [discriminate |].
  destruct (provisional (width clip) s) as [w0 | e] eqn:Hw0; [| discriminate].
  destruct (provisional (height clip) s) as [h0 | e] eqn:Hh0; [| discriminate].
  destruct (moduli clip) as [[mw mh] | e] eqn:Hm; [| discriminate].
  destruct (dict_get (_KERNELS st) (lower kernel)) as [f |]; [| discriminate].
  injection Hrun as Hans _.
  destruct (Hcore _ _ _ _ _ Hans) as (Hcw & Hch & Hfmt).
  destruct (moduli_ok_inv clip mw mh Hm) as (Hwf & -> & ->).
  destruct (modulus_ge_1 clip Hwf) as [Hmw Hmh].
  assert (Hwf' : well_formed clip') by (unfold well_formed; rewrite Hfmt; exact Hwf).
  assert (Emw : modulus_w clip' = modulus_w clip) by (unfold modulus_w; rewrite Hfmt; reflexivity).
  assert (Emh : modulus_h clip' = modulus_h clip) by (unfold modulus_h; rewrite Hfmt; reflexivity).
  destruct (fit_is_aligned (modulus_w clip) w0 Hmw (provisional_ge_1 _ _ _ Hw0))
    as [Hw1 Hdw].
  destruct (fit_is_aligned (modulus_h clip) h0 Hmh (provisional_ge_1 _ _ _ Hh0))
    as [Hh1 Hdh].
  rewrite <- Hcw in Hw1, Hdw. rewrite <- Hch in Hh1, Hdh.
  rewrite (scale_happy core_resize clip' (PyFloat (pow2_float 0)) kernel' st' f'
             (width clip') (height clip') (modulus_w clip) (modulus_h clip)).
  - rewrite !Z.max_r by lia. rewrite !fit_aligned by assumption. reflexivity.
  - reflexivity.
  - rewrite scaled_floor_pow2 by lia. unfold pow2_scaled. cbn. f_equal. lia.
  - rewrite scaled_floor_pow2 by lia. unfold pow2_scaled. cbn. f_equal. lia.
  - rewrite <- Emw, <- Emh. apply moduli_well_formed, Hwf'.
  - exact Hpick.
Qed.


(** X9. Once the factor is positive and the two products are finite,
    [scale] is [pixel] at the computed size, for every kernel name: the
    same call when the name is accepted, the same unknown-kernel error
    when it is not. *)
Theorem scale_is_pixel_at_computed_size
  (clip : VideoNode) (s : number) (kernel : string) (fw fh : Z) (st : world) :
  well_formed clip ->
  positive_scale s = true ->
  scaled_floor (width clip) s = Some fw ->
  scaled_floor (height clip) s = Some fh ->
  scale core_resize clip s kernel st =
  pixel core_resize clip
    (Some (fit (modulus_w clip) (Z.max 1 fw)))
    (Some (fit (modulus_h clip) (Z.max 1 fh))) kernel st.
Proof.
  intros Hwf Hs Hw Hh. rewrite scale_run, pixel_run.
  rewrite (positive_not_le0 s Hs).
  rewrite (provisional_floor _ _ _ Hw), (provisional_floor _ _ _ Hh).
  rewrite (moduli_well_formed clip Hwf). reflexivity.
Qed.

(** X10. With an int factor the size asked for grows with the size of the
    source: of two clips of the same format, the one that is no wider and
    no higher is asked to be no wider and no higher after scaling. *)
Theorem scale_is_monotone
  (c1 c2 : VideoNode) (n : Z) (kernel : string) (f : resize_op) (st : world) :
  well_formed c1 -> format c2 = format c1 -> 0 < n ->
  width c1 <= width c2 -> height c1 <= height c2 ->
  _pick_resizer kernel st = (Ok f, st) ->
  exists w1 h1 w2 h2,
    scale core_resize c1 (PyInt n) kernel st =
      (core_resize f c1 (Some w1) (Some h1),
       mkWorld (_KERNELS st) (invoked st ++ [mkCall f c1 (Some w1) (Some h1)])) /\
    scale core_resize c2 (PyInt n) kernel st =
      (core_resize f c2 (Some w2) (Some h2),
       mkWorld (_KERNELS st) (invoked st ++ [mkCall f c2 (Some w2) (Some h2)])) /\
    w1 <= w2 /\ h1 <= h2.
Proof.
  intros Hwf Hfmt Hn Hw Hh Hpick.
  destruct (modulus_ge_1 c1 Hwf) as [Hmw Hmh].
  assert (Hwf2 : well_formed c2) by (unfold well_formed; rewrite Hfmt; exact Hwf).
  assert (Emw : modulus_w c2 = modulus_w c1) by (unfold modulus_w; rewrite Hfmt; reflexivity).
  assert (Emh : modulus_h c2 = modulus_h c1) by (unfold modulus_h; rewrite Hfmt; reflexivity).
  assert (Hs : positive_scale (PyInt n) = true) by (cbn; apply Z.ltb_lt; lia).
  exists (fit (modulus_w c1) (Z.max 1 (width c1 * n))),
         (fit (modulus_h c1) (Z.max 1 (height c1 * n))),
         (fit (modulus_w c1) (Z.max 1 (width c2 * n))),
         (fit (modulus_h c1) (Z.max 1 (height c2 * n))).
  split; [| split; [| split]].
  - apply scale_happy; try assumption; try reflexivity.
    apply moduli_well_formed, Hwf.
  - apply scale_happy; try assumption; try reflexivity.
    rewrite <- Emw, <- Emh. apply moduli_well_formed, Hwf2.
  - apply fit_monotone; [assumption |]. apply Z.max_le_compat_l. nia.
  - apply fit_monotone; [assumption |]. apply Z.max_le_compat_l. nia.
Qed.

End Further.

(* ================================================================== *)
(** ** The further properties on concrete inputs *)

Lemma sized_node_keeps_size_and_format : keeps_size_and_format sized_node.
Proof.
  intros f c w h c'. cbn. intros [= <-]. repeat split.
Qed.

Lemma scale_rejects_nan_and_infinity_witness :
  py_le0 (PyFloat S754_nan) = false /\
  exists e,
    scale sized_node yuv420_101x57 (PyFloat S754_nan) "point" (loaded []) =
      (Raise e, loaded []) /\
    conversion_error e.
Proof.
  apply (scale_rejects_nan_and_infinity sized_node yuv420_101x57
           (PyFloat S754_nan) "point" (loaded [])).
  reflexivity.
Defined.

Lemma unsupported_kernel_never_called_witness :
  (exists e,
     scale sized_node yuv420_101x57 (PyInt 2) "nearest" (loaded []) =
       (Raise e, loaded [])) /\
  pixel sized_node yuv420_101x57 (Some 640) (Some 480) "nearest" (loaded []) =
    (Raise (ValueError (unknown_kernel_message "nearest" KERNELS_at_load)),
     loaded []).
Proof.
  apply (unsupported_kernel_never_called sized_node yuv420_101x57 (PyInt 2)
           (Some 640) (Some 480) "nearest" []).
  no_match.
Defined.

Lemma scale_by_power_of_two_witness :
  scale sized_node yuv420_101x57 (PyFloat (pow2_float (-1))) "bilinear"
    (loaded []) =
  (sized_node Bilinear yuv420_101x57 (Some 50) (Some 28),
   loaded [mkCall Bilinear yuv420_101x57 (Some 50) (Some 28)]).
Proof.
  apply (scale_by_power_of_two sized_node yuv420_101x57 (-1) "bilinear"
           Bilinear (loaded [])).
  - cbn. lia.
  - cbn. lia.
  - cbn. lia.
  - lia.
  - reflexivity.
Defined.

Lemma scale_up_keeps_alignment_witness :
  scale sized_node yuv420_1920x1080 (PyFloat (pow2_float 1)) "spline36"
    (loaded []) =
  (sized_node Spline36 yuv420_1920x1080 (Some (1920 * 2 ^ 1)) (Some (1080 * 2 ^ 1)),
   loaded [mkCall Spline36 yuv420_1920x1080 (Some (1920 * 2 ^ 1))
                                            (Some (1080 * 2 ^ 1))]).
Proof.
  apply (scale_up_keeps_alignment sized_node yuv420_1920x1080 1 "spline36"
           Spline36 (loaded [])).
  - cbn. lia.
  - unfold aligned. cbn.
    repeat split; try lia; [exists 960 | exists 540]; reflexivity.
  - cbn. lia.
  - cbn. lia.
  - lia.
  - reflexivity.
Defined.

Lemma scale_by_int_factor_witness :
  scale sized_node yuv420_1920x1080 (PyInt 3) "lanczos" (loaded []) =
  (sized_node Lanczos yuv420_1920x1080 (Some (1920 * 3)) (Some (1080 * 3)),
   loaded [mkCall Lanczos yuv420_1920x1080 (Some (1920 * 3)) (Some (1080 * 3))]).
Proof.
  apply (scale_by_int_factor sized_node yuv420_1920x1080 3 "lanczos"
           Lanczos (loaded [])).
  - cbn. lia.
  - unfold aligned. cbn.
    repeat split; try lia; [exists 960 | exists 540]; reflexivity.
  - lia.
  - reflexivity.
Defined.

Lemma scale_variable_size_clip_witness :
  scale sized_node yuv420_variable (PyFloat half) "bicubic" (loaded []) =
  (sized_node Bicubic yuv420_variable (Some 2) (Some 2),
   loaded [mkCall Bicubic yuv420_variable (Some 2) (Some 2)]).
Proof.
  apply (scale_variable_size_clip sized_node yuv420_variable (PyFloat half)
           "bicubic" Bicubic (loaded [])).
  - cbn. lia.
  - reflexivity.
  - reflexivity.
  - reflexivity.
  - reflexivity.
Defined.

Lemma scale_again_keeps_size_witness :
  scale sized_node (mkNode 50 28 (Some (mkFormat 1 1)))
    (PyFloat (pow2_float 0)) "point"
    (loaded [mkCall Bilinear yuv420_101x57 (Some 50) (Some 28)]) =
  (sized_node Point (mkNode 50 28 (Some (mkFormat 1 1))) (Some 50) (Some 28),
   loaded [mkCall Bilinear yuv420_101x57 (Some 50) (Some 28);
           mkCall Point (mkNode 50 28 (Some (mkFormat 1 1))) (Some 50) (Some 28)]).
Proof.
  apply (scale_again_keeps_size sized_node yuv420_101x57
           (mkNode 50 28 (Some (mkFormat 1 1))) (PyFloat half)
           "bilinear" "point" Point (loaded [])
           (loaded [mkCall Bilinear yuv420_101x57 (Some 50) (Some 28)])).
  - exact sized_node_keeps_size_and_format.
  - vm_compute. reflexivity.
  - cbn. lia.
  - cbn. lia.
  - reflexivity.
Defined.


Lemma scale_is_pixel_at_computed_size_witness :
  scale sized_node yuv420_101x57 (PyFloat half) "Gauss" (loaded []) =
  pixel sized_node yuv420_101x57
    (Some (fit (modulus_w yuv420_101x57) (Z.max 1 50)))
    (Some (fit (modulus_h yuv420_101x57) (Z.max 1 28))) "Gauss" (loaded []).
Proof.
  apply (scale_is_pixel_at_computed_size sized_node yuv420_101x57
           (PyFloat half) "Gauss" 50 28 (loaded [])).
  - cbn. lia.
  - reflexivity.
  - vm_compute. reflexivity.
  - vm_compute. reflexivity.
Defined.

Lemma scale_is_monotone_witness :
  exists w1 h1 w2 h2,
    scale sized_node yuv420_3x3 (PyInt 2) "point" (loaded []) =
      (sized_node Point yuv420_3x3 (Some w1) (Some h1),
       loaded [mkCall Point yuv420_3x3 (Some w1) (Some h1)]) /\
    scale sized_node yuv420_101x57 (PyInt 2) "point" (loaded []) =
      (sized_node Point yuv420_101x57 (Some w2) (Some h2),
       loaded [mkCall Point yuv420_101x57 (Some w2) (Some h2)]) /\
    w1 <= w2 /\ h1 <= h2.
Proof.
  apply (scale_is_monotone sized_node yuv420_3x3 yuv420_101x57 2 "point"
           Point (loaded [])).
  - cbn. lia.
  - reflexivity.
  - lia.
  - cbn. lia.
  - cbn. lia.
  - reflexivity.
Defined.
